(** * Scoring strategies of [voting_2024_change_analysis.scoring]

    A shallow embedding of [src/voting_2024_change_analysis/scoring.py]: the
    [ScoreFloatPair] value type and the three implementations of
    [ScoringFuncProtocol] ([PublicWhipScore], [SimplifiedGradiatedScore],
    [SimplifiedScore]).

    The Python code computes on [float].  The functions are written once,
    over an interface [FloatOps] of the operations the module uses
    (literals, [+], [*], [/], [==], [<=], [<]), and run at two instances:

    - [Q], exact rational arithmetic, the numbers the specification speaks
      of;
    - [PrimFloat.float], IEEE 754 binary64, the numbers Python computes on.

    Statements about the control flow and the shape of the formulas are
    proved over [Q] or for any instance.  Where rounding, overflow or NaN
    make a statement of exact arithmetic fail on doubles, the failing input
    is evaluated on [PrimFloat.float] and the statement that holds for all
    doubles is proved from the IEEE 754 description of the primitive
    operations ([FloatAxioms]). *)

From Stdlib Require Import ZArith QArith Qfield Lqa Bool List.
From Stdlib Require Import Floats Uint63.
Import ListNotations.

(** ** The arithmetic of the module *)

Declare Scope py_scope.
Delimit Scope py_scope with py.

Class FloatOps (F : Type) : Type := {
  lit  : Q -> F;            (* a numeric literal of the source, by its value *)
  fadd : F -> F -> F;
  fmul : F -> F -> F;
  fdiv : F -> F -> F;
  feqb : F -> F -> bool;    (* x == y *)
  fleb : F -> F -> bool;    (* x <= y *)
  fltb : F -> F -> bool     (* x <  y *)
}.

Infix "+" := fadd : py_scope.
Infix "*" := fmul : py_scope.
Infix "/" := fdiv : py_scope.
Infix "=?" := feqb (at level 70) : py_scope.
Infix "<=?" := fleb (at level 70) : py_scope.
Notation "x >=? y" := (fleb y x) (at level 70) : py_scope.
Notation "x >? y" := (fltb y x) (at level 70) : py_scope.

(** Exact rationals. *)
#[export] Instance Q_ops : FloatOps Q := {|
  lit  := fun q => q;
  fadd := Qplus;
  fmul := Qmult;
  fdiv := Qdiv;
  feqb := Qeq_bool;
  fleb := Qle_bool;
  fltb := fun x y => negb (Qle_bool y x)
|}.

(** Binary64.  An integer of the source is converted exactly; a decimal
    literal [n / 10^k] is the correctly rounded quotient of two exactly
    represented integers, which is the double Python reads it as. *)
Definition float_of_Z (z : Z) : float :=
  match z with
  | Zneg p => PrimFloat.opp (PrimFloat.of_uint63 (Uint63.of_Z (Zpos p)))
  | _ => PrimFloat.of_uint63 (Uint63.of_Z z)
  end.

#[export] Instance float_ops : FloatOps float := {|
  lit  := fun q => PrimFloat.div (float_of_Z (Qnum q)) (float_of_Z (Zpos (Qden q)));
  fadd := PrimFloat.add;
  fmul := PrimFloat.mul;
  fdiv := PrimFloat.div;
  feqb := PrimFloat.eqb;
  fleb := PrimFloat.leb;
  fltb := PrimFloat.ltb
|}.

(** ** [ScoreFloatPair] *)

Record ScoreFloatPair (F : Type) : Type := mkPair { weak : F; strong : F }.
Arguments mkPair {F} weak strong.
Arguments weak {F} _.
Arguments strong {F} _.

Section Pair.
Context {F : Type} `{FloatOps F}.
Local Open Scope py_scope.

Definition add (self other : ScoreFloatPair F) : ScoreFloatPair F :=
  {| weak := weak self + weak other;
     strong := strong self + strong other |}.

Definition divide (self : ScoreFloatPair F) (other : F) : ScoreFloatPair F :=
  {| weak := weak self / other;
     strong := strong self / other |}.

(** The signature every strategy's [score] has; the six arguments are
    keyword-only in the source and are taken here in its order. *)
Definition ScoringFuncProtocol : Type :=
  forall (votes_same votes_different votes_absent votes_abstain
          agreements_same agreements_different : ScoreFloatPair F), F.
End Pair.
Arguments ScoringFuncProtocol F : clear implicits.

(** ** [PublicWhipScore] *)

Module PublicWhipScore.
Section Score.
Context {F : Type} `{FloatOps F}.
Local Open Scope py_scope.

Definition vote_weight : ScoreFloatPair F := mkPair (lit 10.0) (lit 50.0).
Definition absence_total_weight : ScoreFloatPair F := mkPair (lit 2.0) (lit 50.0).
Definition absence_weight : ScoreFloatPair F := mkPair (lit 1.0) (lit 25.0).

Definition points (votes_different votes_absent votes_abstain : ScoreFloatPair F) : F :=
  (* treat abstentions as absences *)
  let votes_absent_or_abstain := add votes_absent votes_abstain in
  weak vote_weight * weak votes_different
  + strong vote_weight * strong votes_different
  + weak absence_weight * weak votes_absent_or_abstain
  + (strong absence_weight * strong votes_absent_or_abstain).

Definition avaliable_points
    (votes_same votes_different votes_absent votes_abstain : ScoreFloatPair F) : F :=
  let votes_absent_or_abstain := add votes_absent votes_abstain in
  weak vote_weight * weak votes_same
  + weak vote_weight * weak votes_different
  + strong vote_weight * strong votes_same
  + strong vote_weight * strong votes_different
  + strong absence_total_weight * strong votes_absent_or_abstain
  + weak absence_total_weight * weak votes_absent_or_abstain.

Definition all_absences (votes_absent : ScoreFloatPair F) : F :=
  weak votes_absent + strong votes_absent.

Definition all_others (votes_same votes_different votes_abstain : ScoreFloatPair F) : F :=
  weak votes_same
  + strong votes_same
  + weak votes_different
  + strong votes_different
  + weak votes_abstain
  + strong votes_abstain.

Definition score : ScoringFuncProtocol F :=
  fun votes_same votes_different votes_absent votes_abstain
      agreements_same agreements_different =>
  let points := points votes_different votes_absent votes_abstain in
  let avaliable_points :=
    avaliable_points votes_same votes_different votes_absent votes_abstain in
  let all_absences := all_absences votes_absent in
  let all_others := all_others votes_same votes_different votes_abstain in
  if (all_others =? lit 0) && (all_absences >? lit 0) then lit (-1)
  else if avaliable_points =? lit 0 then lit (-1)
  else points / avaliable_points.

(** Which of the three [return] statements of [score] is reached. *)
Inductive ReturnSite : Set :=
| JustAbsences      (* line 122 *)
| NothingAvailable  (* line 125 *)
| Ratio.            (* line 127 *)

Definition return_site
    (votes_same votes_different votes_absent votes_abstain : ScoreFloatPair F)
    : ReturnSite :=
  if (all_others votes_same votes_different votes_abstain =? lit 0)
     && (all_absences votes_absent >? lit 0) then JustAbsences
  else if avaliable_points votes_same votes_different votes_absent votes_abstain
          =? lit 0 then NothingAvailable
  else Ratio.
End Score.
End PublicWhipScore.

(** ** [SimplifiedGradiatedScore] *)

Module SimplifiedGradiatedScore.
Section Score.
Context {F : Type} `{FloatOps F}.
Local Open Scope py_scope.

Definition vote_weight : ScoreFloatPair F := mkPair (lit 10.0) (lit 50.0).
Definition agreement_weight : ScoreFloatPair F := vote_weight.
Definition abstain_total_weight : ScoreFloatPair F := vote_weight.
(* abstain is half marks *)
Definition abstain_weight : ScoreFloatPair F := divide vote_weight (lit 2).
(* absences are worth nothing *)
Definition absence_weight : ScoreFloatPair F := mkPair (lit 0.0) (lit 0.0).
(* out of nothing *)
Definition absence_total_weight : ScoreFloatPair F := mkPair (lit 0.0) (lit 0.0).

Definition points
    (votes_different votes_absent votes_abstain agreements_different
       : ScoreFloatPair F) : F :=
  weak vote_weight * weak votes_different
  + strong vote_weight * strong votes_different
  + weak absence_weight * weak votes_absent
  + strong absence_weight * strong votes_absent
  + weak abstain_weight * weak votes_abstain
  + strong abstain_weight * strong votes_abstain
  + weak agreement_weight * weak agreements_different
  + strong agreement_weight * strong agreements_different.

Definition avaliable_points
    (votes_same votes_different votes_absent votes_abstain
     agreements_same agreements_different : ScoreFloatPair F) : F :=
  weak vote_weight * (weak votes_same + weak votes_different)
  + strong vote_weight * (strong votes_same + strong votes_different)
  + weak agreement_weight * (weak agreements_same + weak agreements_different)
  + strong agreement_weight
    * (strong agreements_same + strong agreements_different)
  + weak absence_total_weight * weak votes_absent
  + strong absence_total_weight * strong votes_absent
  + weak abstain_total_weight * weak votes_abstain
  + strong abstain_total_weight * strong votes_abstain.

Definition total
    (votes_same votes_different votes_absent votes_abstain : ScoreFloatPair F) : F :=
  strong (add (add (add votes_same votes_different) votes_absent) votes_abstain).

Definition score : ScoringFuncProtocol F :=
  fun votes_same votes_different votes_absent votes_abstain
      agreements_same agreements_different =>
  let points :=
    points votes_different votes_absent votes_abstain agreements_different in
  let avaliable_points :=
    avaliable_points votes_same votes_different votes_absent votes_abstain
                     agreements_same agreements_different in
  if avaliable_points =? lit 0 then lit (-1)
  else
    let score := points / avaliable_points in
    let total := total votes_same votes_different votes_absent votes_abstain in
    (* if more than one absent vote cap the score *)
    let score :=
      if strong votes_absent >? lit 1 then
        if score <=? lit 0.05 then lit 0.06
        else if score >=? lit 0.95 then lit 0.94
        else score
      else score in
    (* if more than one-third absent vote cap the score *)
    let score :=
      if strong votes_absent >=? total / lit 3 then
        if score <=? lit 0.15 then lit 0.16
        else if score >=? lit 0.85 then lit 0.84
        else score
      else score in
    score.
End Score.
End SimplifiedGradiatedScore.

(** ** [SimplifiedScore] *)

Module SimplifiedScore.
Section Score.
Context {F : Type} `{FloatOps F}.
Local Open Scope py_scope.

Definition vote_weight : ScoreFloatPair F := mkPair (lit 0.0) (lit 10.0).
Definition agreement_weight : ScoreFloatPair F := vote_weight.
Definition abstain_total_weight : ScoreFloatPair F := vote_weight.
(* abstain is half marks *)
Definition abstain_weight : ScoreFloatPair F := divide vote_weight (lit 2).
(* absences are worth nothing *)
Definition absence_weight : ScoreFloatPair F := mkPair (lit 0.0) (lit 0.0).
(* out of nothing *)
Definition absence_total_weight : ScoreFloatPair F := mkPair (lit 0.0) (lit 0.0).

Definition points
    (votes_different votes_absent votes_abstain agreements_different
       : ScoreFloatPair F) : F :=
  weak vote_weight * weak votes_different
  + strong vote_weight * strong votes_different
  + weak absence_weight * weak votes_absent
  + strong absence_weight * strong votes_absent
  + weak abstain_weight * weak votes_abstain
  + strong abstain_weight * strong votes_abstain
  + weak agreement_weight * weak agreements_different
  + strong agreement_weight * strong agreements_different.

Definition avaliable_points
    (votes_same votes_different votes_absent votes_abstain
     agreements_same agreements_different : ScoreFloatPair F) : F :=
  weak vote_weight * (weak votes_same + weak votes_different)
  + strong vote_weight * (strong votes_same + strong votes_different)
  + weak agreement_weight * (weak agreements_same + weak agreements_different)
  + strong agreement_weight
    * (strong agreements_same + strong agreements_different)
  + weak absence_total_weight * weak votes_absent
  + strong absence_total_weight * strong votes_absent
  + weak abstain_total_weight * weak votes_abstain
  + strong abstain_total_weight * strong votes_abstain.

Definition total
    (votes_same votes_different votes_absent votes_abstain : ScoreFloatPair F) : F :=
  strong (add (add (add votes_same votes_different) votes_absent) votes_abstain).

Definition score : ScoringFuncProtocol F :=
  fun votes_same votes_different votes_absent votes_abstain
      agreements_same agreements_different =>
  let points :=
    points votes_different votes_absent votes_abstain agreements_different in
  let avaliable_points :=
    avaliable_points votes_same votes_different votes_absent votes_abstain
                     agreements_same agreements_different in
  if avaliable_points =? lit 0 then lit (-1)
  else
    let score := points / avaliable_points in
    let total := total votes_same votes_different votes_absent votes_abstain in
    (* if more than one absent vote cap the score *)
    let score :=
      if strong votes_absent >? lit 1 then
        if score <=? lit 0.05 then lit 0.06
        else if score >=? lit 0.95 then lit 0.94
        else score
      else score in
    (* if more than one-third absent vote cap the score *)
    let score :=
      if strong votes_absent >=? total / lit 3 then
        if score <=? lit 0.15 then lit 0.16
        else if score >=? lit 0.85 then lit 0.84
        else score
      else score in
    score.
End Score.
End SimplifiedScore.

(** ** The strategies as a closed family *)

(** The three classes of the module that implement [ScoringFuncProtocol]. *)
Inductive Strategy : Set :=
| PublicWhip
| SimplifiedGradiated
| Simplified.

Definition score_of {F : Type} `{FloatOps F} (s : Strategy) : ScoringFuncProtocol F :=
  match s with
  | PublicWhip => PublicWhipScore.score
  | SimplifiedGradiated => SimplifiedGradiatedScore.score
  | Simplified => SimplifiedScore.score
  end.

(** The two caps that close both simplified [score] functions (lines 194-206
    and 274-286 of the source, the same text twice), as a function of the
    strong absences, the strong total and the score so far.  The second cap
    reads the score the first one has left. *)
Section Bounding.
Context {F : Type} `{FloatOps F}.
Local Open Scope py_scope.

Definition bounding_adjustment (absent_strong total score : F) : F :=
  let score :=
    if absent_strong >? lit 1 then
      if score <=? lit 0.05 then lit 0.06
      else if score >=? lit 0.95 then lit 0.94
      else score
    else score in
  let score :=
    if absent_strong >=? total / lit 3 then
      if score <=? lit 0.15 then lit 0.16
      else if score >=? lit 0.85 then lit 0.84
      else score
    else score in
  score.
End Bounding.

(** The simplified scheme as section 4.4 of the specification words it,
    with the vote weight left open: section 4.5 describes [SimplifiedScore]
    as this scheme with the weak weight set to zero.  It is compared below
    with the two functions of the source. *)
Section SpecScheme.
Context {F : Type} `{FloatOps F}.
Local Open Scope py_scope.

Definition spec_simplified_scheme (vote_weight : ScoreFloatPair F)
  : ScoringFuncProtocol F :=
  fun same different absent abstain agreements_same agreements_different =>
  let half := divide vote_weight (lit 2) in
  let points :=
    weak vote_weight * weak different + strong vote_weight * strong different
    + weak half * weak abstain + strong half * strong abstain
    + weak vote_weight * weak agreements_different
    + strong vote_weight * strong agreements_different in
  let available :=
    weak vote_weight * (weak same + weak different)
    + strong vote_weight * (strong same + strong different)
    + weak vote_weight * (weak agreements_same + weak agreements_different)
    + strong vote_weight * (strong agreements_same + strong agreements_different)
    + weak vote_weight * weak abstain + strong vote_weight * strong abstain in
  if available =? lit 0 then lit (-1)
  else
    let total := strong (add (add (add same different) absent) abstain) in
    bounding_adjustment (strong absent) total (points / available).
End SpecScheme.

(** ** Predicates on inputs (over [Q]) *)

Definition nonneg (p : ScoreFloatPair Q) : Prop :=
  (0 <= weak p /\ 0 <= strong p)%Q.

Definition is_zero (p : ScoreFloatPair Q) : Prop :=
  (weak p == 0 /\ strong p == 0)%Q.

Definition zero : ScoreFloatPair Q := mkPair 0%Q 0%Q.

(** ** Inputs on binary64, from integer counts *)

Definition float_pair (w s : Z) : ScoreFloatPair float :=
  mkPair (float_of_Z w) (float_of_Z s).

Definition float_zero : ScoreFloatPair float := float_pair 0 0.


(** A weak count of 2^1023, the largest power of two among the doubles. *)
Definition huge_weak : ScoreFloatPair float := mkPair 0x1p1023%float 0%float.


(** The three [return] statements of [PublicWhipScore.score] (lines 121 to
    127), as a function of the four quantities computed before them. *)
Section Deciding.
Context {F : Type} `{FloatOps F}.
Local Open Scope py_scope.

Definition public_whip_decide
    (all_others all_absences avaliable_points points : F) : F :=
  if (all_others =? lit 0) && (all_absences >? lit 0) then lit (-1)
  else if avaliable_points =? lit 0 then lit (-1)
  else points / avaliable_points.
End Deciding.

(** ** Division that can raise *)

(** Python's [/] on floats raises [ZeroDivisionError] when the divisor
    compares equal to zero; [None] stands for the exception.  The three
    [score] functions are written again with this division, every other
    step as above, to see that none of their divisions can raise. *)
Module Checked.
Section Raising.
Context {F : Type} `{FloatOps F}.
Local Open Scope py_scope.

Definition div (x y : F) : option F :=
  if y =? lit 0 then None else Some (x / y).

Local Notation "x <- e ;; k" :=
  (match e with Some x => k | None => None end)
  (at level 61, e at next level, right associativity).

Definition divide (self : ScoreFloatPair F) (other : F)
  : option (ScoreFloatPair F) :=
  w <- div (weak self) other ;;
  s <- div (strong self) other ;;
  Some (mkPair w s).

Definition public_whip_score
    (votes_same votes_different votes_absent votes_abstain
     agreements_same agreements_different : ScoreFloatPair F) : option F :=
  let points :=
    PublicWhipScore.points votes_different votes_absent votes_abstain in
  let avaliable_points :=
    PublicWhipScore.avaliable_points votes_same votes_different votes_absent
                                     votes_abstain in
  let all_absences := PublicWhipScore.all_absences votes_absent in
  let all_others :=
    PublicWhipScore.all_others votes_same votes_different votes_abstain in
  if (all_others =? lit 0) && (all_absences >? lit 0) then Some (lit (-1))
  else if avaliable_points =? lit 0 then Some (lit (-1))
  else div points avaliable_points.

(** The body that [SimplifiedGradiatedScore.score] and
    [SimplifiedScore.score] share; the two differ in [vote_weight] only. *)
Definition simplified_body (vote_weight : ScoreFloatPair F)
    (votes_same votes_different votes_absent votes_abstain
     agreements_same agreements_different : ScoreFloatPair F) : option F :=
  let agreement_weight := vote_weight in
  let abstain_total_weight := vote_weight in
  abstain_weight <- divide vote_weight (lit 2) ;;
  let absence_weight : ScoreFloatPair F := mkPair (lit 0.0) (lit 0.0) in
  let absence_total_weight : ScoreFloatPair F := mkPair (lit 0.0) (lit 0.0) in
  let points :=
    weak vote_weight * weak votes_different
    + strong vote_weight * strong votes_different
    + weak absence_weight * weak votes_absent
    + strong absence_weight * strong votes_absent
    + weak abstain_weight * weak votes_abstain
    + strong abstain_weight * strong votes_abstain
    + weak agreement_weight * weak agreements_different
    + strong agreement_weight * strong agreements_different in
  let avaliable_points :=
    weak vote_weight * (weak votes_same + weak votes_different)
    + strong vote_weight * (strong votes_same + strong votes_different)
    + weak agreement_weight * (weak agreements_same + weak agreements_different)
    + strong agreement_weight
      * (strong agreements_same + strong agreements_different)
    + weak absence_total_weight * weak votes_absent
    + strong absence_total_weight * strong votes_absent
    + weak abstain_total_weight * weak votes_abstain
    + strong abstain_total_weight * strong votes_abstain in
  if avaliable_points =? lit 0 then Some (lit (-1))
  else
    score <- div points avaliable_points ;;
    let total :=
      strong (add (add (add votes_same votes_different) votes_absent)
                  votes_abstain) in
    let score :=
      if strong votes_absent >? lit 1 then
        if score <=? lit 0.05 then lit 0.06
        else if score >=? lit 0.95 then lit 0.94
        else score
      else score in
    third <- div total (lit 3) ;;
    let score :=
      if strong votes_absent >=? third then
        if score <=? lit 0.15 then lit 0.16
        else if score >=? lit 0.85 then lit 0.84
        else score
      else score in
    Some score.

Definition score_of (s : Strategy)
    (votes_same votes_different votes_absent votes_abstain
     agreements_same agreements_different : ScoreFloatPair F) : option F :=
  match s with
  | PublicWhip =>
      public_whip_score votes_same votes_different votes_absent votes_abstain
                        agreements_same agreements_different
  | SimplifiedGradiated =>
      simplified_body (mkPair (lit 10.0) (lit 50.0))
        votes_same votes_different votes_absent votes_abstain
        agreements_same agreements_different
  | Simplified =>
      simplified_body (mkPair (lit 0.0) (lit 10.0))
        votes_same votes_different votes_absent votes_abstain
        agreements_same agreements_different
  end.
End Raising.
End Checked.

(** ** The two simplified functions as one text *)

(** [SimplifiedGradiatedScore.score] and [SimplifiedScore.score] are the same
    text but for the literal [vote_weight]; this is that text, every term
    and every step in the order of the source, with [vote_weight] left
    open. *)
Section Scheme.
Context {F : Type} `{FloatOps F}.
Local Open Scope py_scope.


(** The quotient each strategy computes before its caps: its points over
    its available points. *)
Definition quotient_of (s : Strategy) : ScoringFuncProtocol F :=
  fun votes_same votes_different votes_absent votes_abstain
      agreements_same agreements_different =>
  match s with
  | PublicWhip =>
      PublicWhipScore.points votes_different votes_absent votes_abstain
      / PublicWhipScore.avaliable_points votes_same votes_different
          votes_absent votes_abstain
  | SimplifiedGradiated =>
      SimplifiedGradiatedScore.points votes_different votes_absent
        votes_abstain agreements_different
      / SimplifiedGradiatedScore.avaliable_points votes_same votes_different
          votes_absent votes_abstain agreements_same agreements_different
  | Simplified =>
      SimplifiedScore.points votes_different votes_absent
        votes_abstain agreements_different
      / SimplifiedScore.avaliable_points votes_same votes_different
          votes_absent votes_abstain agreements_same agreements_different
  end.

Definition avaliable_points_of (s : Strategy) : ScoringFuncProtocol F :=
  fun votes_same votes_different votes_absent votes_abstain
      agreements_same agreements_different =>
  match s with
  | PublicWhip =>
      PublicWhipScore.avaliable_points votes_same votes_different
        votes_absent votes_abstain
  | SimplifiedGradiated =>
      SimplifiedGradiatedScore.avaliable_points votes_same votes_different
        votes_absent votes_abstain agreements_same agreements_different
  | Simplified =>
      SimplifiedScore.avaliable_points votes_same votes_different
        votes_absent votes_abstain agreements_same agreements_different
  end.
End Scheme.

(** ** Doubles by their IEEE 754 description *)

(** A double that is a zero of either sign; a double that is neither an
    infinity nor NaN; and a count: a finite double that is [+0.0] or
    positive. *)
Definition SFzero (x : spec_float) : bool :=
  match x with S754_zero _ => true | _ => false end.

Definition SFfinite (x : spec_float) : bool :=
  match x with S754_zero _ | S754_finite _ _ _ => true | _ => false end.

Definition is_count (x : float) : bool :=
  match Prim2SF x with
  | S754_zero false | S754_finite false _ _ => true
  | _ => false
  end.

(** * Properties, over exact rationals *)

Local Open Scope Q_scope.

(** ** Reading the boolean tests of [Q_ops] as propositions *)

Lemma Qle_bool_false (x y : Q) : Qle_bool x y = false -> y < x.
Proof.
  intro E. apply Qnot_le_lt. intro L.
  apply Qle_bool_iff in L. congruence.
Qed.

Lemma Qle_bool_lt_false (x y : Q) : y < x -> Qle_bool x y = false.
Proof.
  intro L. destruct (Qle_bool x y) eqn:E; [|reflexivity].
  apply Qle_bool_iff in E. exfalso. apply (Qlt_not_le _ _ L E).
Qed.

Lemma Qle_bool_true (x y : Q) : x <= y -> Qle_bool x y = true.
Proof. apply Qle_bool_iff. Qed.

Lemma Qeq_bool_true (x y : Q) : x == y -> Qeq_bool x y = true.
Proof. apply Qeq_bool_iff. Qed.

Lemma Qeq_bool_false (x y : Q) : ~ x == y -> Qeq_bool x y = false.
Proof.
  intro N. destruct (Qeq_bool x y) eqn:E; [|reflexivity].
  apply Qeq_bool_iff in E. contradiction.
Qed.

(** Division by the literal 3 is multiplication by a third, which linear
    arithmetic understands. *)
Ltac thirds :=
  repeat match goal with
  | |- context [?t / 3] => change (t / 3) with (t * (1 # 3))
  | H : context [?t / 3] |- _ => change (t / 3) with (t * (1 # 3)) in H
  | |- context [?t / 2] => change (t / 2) with (t * (1 # 2))
  | H : context [?t / 2] |- _ => change (t / 2) with (t * (1 # 2)) in H
  end.

Ltac bools_to_props :=
  repeat match goal with
  | H : Qeq_bool _ _ = true |- _ => apply Qeq_bool_iff in H
  | H : Qeq_bool _ _ = false |- _ => apply Qeq_bool_neq in H
  | H : Qle_bool _ _ = true |- _ => apply Qle_bool_iff in H
  | H : Qle_bool _ _ = false |- _ => apply Qle_bool_false in H
  end.

(** Case analysis on every comparison the goal still tests, innermost
    first: a comparison whose operand is itself a conditional waits until
    that conditional is decided. *)
Ltac no_test t :=
  lazymatch t with
  | context [if _ then _ else _] => fail
  | _ => idtac
  end.

Ltac split_tests :=
  repeat (match goal with
          | |- context [Qeq_bool ?a ?b] =>
              no_test a; no_test b; destruct (Qeq_bool a b) eqn:?
          | |- context [Qle_bool ?a ?b] =>
              no_test a; no_test b; destruct (Qle_bool a b) eqn:?
          end; cbn [negb andb]);
  bools_to_props.

Ltac open_pairs vs vd va vb gs gd :=
  destruct vs as [sw ss], vd as [dw ds], va as [aw as_], vb as [bw bs],
           gs as [gsw gss], gd as [gdw gds];
  unfold nonneg, is_zero in *; cbn [weak strong] in *.

Ltac to_Q :=
  cbn [weak strong lit fadd fmul fdiv feqb fleb fltb Q_ops] in *.

Ltac unfold_public_whip :=
  unfold PublicWhipScore.score, PublicWhipScore.return_site,
    PublicWhipScore.points, PublicWhipScore.avaliable_points,
    PublicWhipScore.all_absences, PublicWhipScore.all_others,
    PublicWhipScore.vote_weight, PublicWhipScore.absence_weight,
    PublicWhipScore.absence_total_weight, add in *;
  to_Q.

(** ** [PublicWhipScore] *)

(** [return_site] names the [return] that [score] takes. *)
Lemma public_whip_score_by_site {F : Type} `{FloatOps F}
    (votes_same votes_different votes_absent votes_abstain
     agreements_same agreements_different : ScoreFloatPair F) :
  PublicWhipScore.score votes_same votes_different votes_absent votes_abstain
                        agreements_same agreements_different
  = match PublicWhipScore.return_site votes_same votes_different votes_absent
            votes_abstain with
    | PublicWhipScore.JustAbsences => lit (-1)
    | PublicWhipScore.NothingAvailable => lit (-1)
    | PublicWhipScore.Ratio =>
        fdiv (PublicWhipScore.points votes_different votes_absent votes_abstain)
             (PublicWhipScore.avaliable_points votes_same votes_different
                votes_absent votes_abstain)
    end.
Proof.
  unfold PublicWhipScore.score, PublicWhipScore.return_site. cbv zeta.
  destruct (andb _ _); [reflexivity|].
  destruct (feqb _ _); reflexivity.
Qed.

(** C8. The literal scenario of the docstring: two weak votes in line and
    three weak absences give 3 points out of 26, and [score] returns 3/26,
    which is 0.1154 to four places and rounds to 0.12. *)
Theorem public_whip_literal_scenario :
  let votes_same := mkPair 2 0 in
  let votes_absent := mkPair 3 0 in
  PublicWhipScore.points zero votes_absent zero == 3
  /\ PublicWhipScore.avaliable_points votes_same zero votes_absent zero == 26
  /\ PublicWhipScore.score votes_same zero votes_absent zero zero zero == 3 # 26
  /\ 0.11535 < PublicWhipScore.score votes_same zero votes_absent zero zero zero
     < 0.11545
  /\ 0.115 <= PublicWhipScore.score votes_same zero votes_absent zero zero zero
     < 0.125.
Proof.
  cbv zeta. repeat split; vm_compute; congruence.
Qed.

(** C1. Whenever neither guard of [PublicWhipScore.score] fires (the
    comparison is not one of absences only, and the available points are not
    zero), the result is the quotient of the points by the available points,
    with the weights 10/50 for votes, 1/25 for the charge of an absence and
    2/50 for its share of the denominator. *)
Theorem public_whip_score_ratio
    (votes_same votes_different votes_absent votes_abstain
     agreements_same agreements_different : ScoreFloatPair Q) :
  let absent_w := weak votes_absent + weak votes_abstain in
  let absent_s := strong votes_absent + strong votes_abstain in
  let points :=
    10 * weak votes_different + 50 * strong votes_different
    + 1 * absent_w + 25 * absent_s in
  let available :=
    10 * (weak votes_same + weak votes_different)
    + 50 * (strong votes_same + strong votes_different)
    + 2 * absent_w + 50 * absent_s in
  ~ (weak votes_same + strong votes_same + weak votes_different
     + strong votes_different + weak votes_abstain + strong votes_abstain == 0
     /\ 0 < weak votes_absent + strong votes_absent) ->
  ~ available == 0 ->
  PublicWhipScore.score votes_same votes_different votes_absent votes_abstain
                        agreements_same agreements_different
  == points / available.
Proof.
  intros absent_w absent_s points available Hjust Havail.
  subst absent_w absent_s points available.
  open_pairs votes_same votes_different votes_absent votes_abstain
             agreements_same agreements_different.
  unfold_public_whip.
  match goal with
  | |- (if ?g then _ else _) == _ => assert (G : g = false)
  end.
  { apply andb_false_iff.
    destruct (Qeq_bool (sw + ss + dw + ds + bw + bs) 0)
      eqn:E0; [right | left; reflexivity].
    apply Qeq_bool_iff in E0. apply negb_false_iff, Qle_bool_true.
    apply Qnot_lt_le. intro L. apply Hjust. split; assumption. }
  rewrite G. rewrite Qeq_bool_false.
  - apply Qdiv_comp; ring.
  - intro E. apply Havail. rewrite <- E. ring.
Qed.

Lemma public_whip_score_ratio_witness :
  PublicWhipScore.score (mkPair 2 0) zero (mkPair 3 0) zero zero zero
  == (10 * 0 + 50 * 0 + 1 * (3 + 0) + 25 * (0 + 0))
     / (10 * (2 + 0) + 50 * (0 + 0) + 2 * (3 + 0) + 50 * (0 + 0)).
Proof.
  apply (public_whip_score_ratio (mkPair 2 0) zero (mkPair 3 0) zero zero zero).
  - vm_compute. intros [E _]. discriminate E.
  - vm_compute. intro E. discriminate E.
Defined.

(** C3. A comparison made of absences only scores -1 whatever the absent
    counts are, and it is the first [return] of the function that gives it,
    before the available points are looked at. *)
Theorem public_whip_just_absences
    (votes_same votes_different votes_absent votes_abstain
     agreements_same agreements_different : ScoreFloatPair Q) :
  is_zero votes_same -> is_zero votes_different -> is_zero votes_abstain ->
  0 < weak votes_absent + strong votes_absent ->
  PublicWhipScore.score votes_same votes_different votes_absent votes_abstain
                        agreements_same agreements_different = -1
  /\ PublicWhipScore.return_site votes_same votes_different votes_absent
                                 votes_abstain
     = PublicWhipScore.JustAbsences.
Proof.
  intros Hs Hd Hb Ha.
  open_pairs votes_same votes_different votes_absent votes_abstain
             agreements_same agreements_different.
  unfold_public_whip.
  destruct Hs, Hd, Hb.
  rewrite Qeq_bool_true by lra.
  rewrite Qle_bool_lt_false by lra.
  split; reflexivity.
Qed.

Lemma public_whip_just_absences_witness :
  PublicWhipScore.score zero zero (mkPair 3 0) zero zero zero = -1
  /\ PublicWhipScore.return_site zero zero (mkPair 3 0) zero
     = PublicWhipScore.JustAbsences.
Proof.
  apply (public_whip_just_absences zero zero (mkPair 3 0) zero zero zero);
    vm_compute; auto.
Defined.

(** The order of the two guards cannot be seen in the value returned, only
    in the site: where both hold, it is still the first one that returns.
    (Such an input needs a negative count.) *)
Example public_whip_guard_order :
  let votes_absent := mkPair 25 (-1) in
  PublicWhipScore.avaliable_points zero zero votes_absent zero == 0
  /\ PublicWhipScore.return_site zero zero votes_absent zero
     = PublicWhipScore.JustAbsences.
Proof. split; vm_compute; reflexivity. Qed.

(** In the scenario of C3 the available points need not be zero: the second
    guard alone would have let the quotient 3/6 through. *)
Example public_whip_just_absences_not_second_guard :
  ~ PublicWhipScore.avaliable_points zero zero (mkPair 3 0) zero == 0
  /\ PublicWhipScore.points zero (mkPair 3 0) zero
     / PublicWhipScore.avaliable_points zero zero (mkPair 3 0) zero == 1 # 2.
Proof. split; vm_compute; congruence. Qed.

(** C7. The two agreement arguments play no part in [PublicWhipScore.score]. *)
Theorem public_whip_ignores_agreements
    (votes_same votes_different votes_absent votes_abstain
     agreements_same agreements_different
     agreements_same' agreements_different' : ScoreFloatPair Q) :
  PublicWhipScore.score votes_same votes_different votes_absent votes_abstain
                        agreements_same agreements_different
  = PublicWhipScore.score votes_same votes_different votes_absent votes_abstain
                          agreements_same' agreements_different'.
Proof. reflexivity. Qed.

(** ** The bounding adjustment *)

Ltac unfold_bounding :=
  unfold bounding_adjustment in *; to_Q; thirds.

(** Both simplified functions are their points over their available
    points, passed through the bounding adjustment. *)
Lemma gradiated_score_bounding
    (votes_same votes_different votes_absent votes_abstain
     agreements_same agreements_different : ScoreFloatPair Q) :
  SimplifiedGradiatedScore.score votes_same votes_different votes_absent
    votes_abstain agreements_same agreements_different
  = if Qeq_bool
         (SimplifiedGradiatedScore.avaliable_points votes_same votes_different
            votes_absent votes_abstain agreements_same agreements_different) 0
    then -1
    else bounding_adjustment (strong votes_absent)
           (SimplifiedGradiatedScore.total votes_same votes_different
              votes_absent votes_abstain)
           (SimplifiedGradiatedScore.points votes_different votes_absent
              votes_abstain agreements_different
            / SimplifiedGradiatedScore.avaliable_points votes_same
                votes_different votes_absent votes_abstain agreements_same
                agreements_different).
Proof. reflexivity. Qed.

Lemma simplified_score_bounding
    (votes_same votes_different votes_absent votes_abstain
     agreements_same agreements_different : ScoreFloatPair Q) :
  SimplifiedScore.score votes_same votes_different votes_absent
    votes_abstain agreements_same agreements_different
  = if Qeq_bool
         (SimplifiedScore.avaliable_points votes_same votes_different
            votes_absent votes_abstain agreements_same agreements_different) 0
    then -1
    else bounding_adjustment (strong votes_absent)
           (SimplifiedScore.total votes_same votes_different
              votes_absent votes_abstain)
           (SimplifiedScore.points votes_different votes_absent
              votes_abstain agreements_different
            / SimplifiedScore.avaliable_points votes_same
                votes_different votes_absent votes_abstain agreements_same
                agreements_different).
Proof. reflexivity. Qed.

(** The adjustment returns its argument or one of the four cap values. *)
Lemma bounding_adjustment_values (absent_strong total score : Q) :
  let r := bounding_adjustment absent_strong total score in
  r = score \/ r = 0.06 \/ r = 0.94 \/ r = 0.16 \/ r = 0.84.
Proof.
  unfold_bounding.
  repeat match goal with
  | |- context [if ?b then _ else _] => destruct b
  end; auto 6.
Qed.

(** It keeps a score inside the unit interval. *)
Lemma bounding_adjustment_unit (absent_strong total score : Q) :
  0 <= score <= 1 ->
  0 <= bounding_adjustment absent_strong total score <= 1.
Proof.
  intros Hr.
  destruct (bounding_adjustment_values absent_strong total score)
    as [E|[E|[E|[E|E]]]]; rewrite E; lra.
Qed.

(** It does not tell equal rationals apart. *)
Lemma bounding_adjustment_proper (absent_strong total r1 r2 : Q) :
  r1 == r2 ->
  bounding_adjustment absent_strong total r1
  == bounding_adjustment absent_strong total r2.
Proof.
  intros E. unfold_bounding. split_tests; lra.
Qed.

(** Where neither cap applies the score is returned as it is. *)
Lemma bounding_adjustment_middle (absent_strong total score : Q) :
  0.15 < score < 0.85 ->
  bounding_adjustment absent_strong total score = score.
Proof.
  intros Hr. unfold_bounding. split_tests; try reflexivity; exfalso; lra.
Qed.

(** A quotient of a part by a whole lies in the unit interval. *)
Lemma ratio_unit (p a : Q) :
  0 <= p -> p <= a -> ~ a == 0 -> 0 <= p / a <= 1.
Proof.
  intros Hp Hpa Ha.
  assert (0 < a) by lra.
  split.
  - apply Qle_shift_div_l; lra.
  - apply Qle_shift_div_r; lra.
Qed.

(** ** Points and available points *)

Ltac unfold_gradiated :=
  unfold SimplifiedGradiatedScore.points,
    SimplifiedGradiatedScore.avaliable_points, SimplifiedGradiatedScore.total,
    SimplifiedGradiatedScore.agreement_weight,
    SimplifiedGradiatedScore.abstain_total_weight,
    SimplifiedGradiatedScore.abstain_weight,
    SimplifiedGradiatedScore.absence_weight,
    SimplifiedGradiatedScore.absence_total_weight,
    SimplifiedGradiatedScore.vote_weight, add, divide in *;
  to_Q; thirds.

Ltac unfold_simplified :=
  unfold SimplifiedScore.points,
    SimplifiedScore.avaliable_points, SimplifiedScore.total,
    SimplifiedScore.agreement_weight,
    SimplifiedScore.abstain_total_weight,
    SimplifiedScore.abstain_weight,
    SimplifiedScore.absence_weight,
    SimplifiedScore.absence_total_weight,
    SimplifiedScore.vote_weight, add, divide in *;
  to_Q; thirds.

Section NonNegativeCounts.
Variables votes_same votes_different votes_absent votes_abstain
          agreements_same agreements_different : ScoreFloatPair Q.
Hypothesis Hsame : nonneg votes_same.
Hypothesis Hdifferent : nonneg votes_different.
Hypothesis Habsent : nonneg votes_absent.
Hypothesis Habstain : nonneg votes_abstain.
Hypothesis Hagree_same : nonneg agreements_same.
Hypothesis Hagree_different : nonneg agreements_different.

Ltac open_section_pairs :=
  open_pairs votes_same votes_different votes_absent votes_abstain
             agreements_same agreements_different.

(** With counts that are not negative, the points of every strategy lie
    between zero and its available points. *)
Lemma public_whip_points_bounds :
  0 <= PublicWhipScore.points votes_different votes_absent votes_abstain
    <= PublicWhipScore.avaliable_points votes_same votes_different
         votes_absent votes_abstain.
Proof. open_section_pairs. unfold_public_whip. lra. Qed.

Lemma gradiated_points_bounds :
  0 <= SimplifiedGradiatedScore.points votes_different votes_absent
         votes_abstain agreements_different
    <= SimplifiedGradiatedScore.avaliable_points votes_same votes_different
         votes_absent votes_abstain agreements_same agreements_different.
Proof. open_section_pairs. unfold_gradiated. lra. Qed.

Lemma simplified_points_bounds :
  0 <= SimplifiedScore.points votes_different votes_absent
         votes_abstain agreements_different
    <= SimplifiedScore.avaliable_points votes_same votes_different
         votes_absent votes_abstain agreements_same agreements_different.
Proof. open_section_pairs. unfold_simplified. lra. Qed.

Lemma public_whip_sentinel_or_unit :
  let r := PublicWhipScore.score votes_same votes_different votes_absent
             votes_abstain agreements_same agreements_different in
  r = -1 \/ 0 <= r <= 1.
Proof.
  pose proof public_whip_points_bounds as [Hp Ha].
  unfold PublicWhipScore.score. to_Q. cbv zeta.
  destruct (Qeq_bool _ 0 && negb _); [left; reflexivity|].
  destruct (Qeq_bool _ 0) eqn:E; [left; reflexivity|].
  right. apply Qeq_bool_neq in E. apply ratio_unit; assumption.
Qed.

Lemma gradiated_sentinel_or_unit :
  let r := SimplifiedGradiatedScore.score votes_same votes_different
             votes_absent votes_abstain agreements_same
             agreements_different in
  r = -1 \/ 0 <= r <= 1.
Proof.
  pose proof gradiated_points_bounds as [Hp Ha].
  cbv zeta. rewrite gradiated_score_bounding.
  destruct (Qeq_bool _ 0) eqn:E; [left; reflexivity|].
  right. apply Qeq_bool_neq in E.
  apply bounding_adjustment_unit, ratio_unit; assumption.
Qed.

Lemma simplified_sentinel_or_unit :
  let r := SimplifiedScore.score votes_same votes_different
             votes_absent votes_abstain agreements_same
             agreements_different in
  r = -1 \/ 0 <= r <= 1.
Proof.
  pose proof simplified_points_bounds as [Hp Ha].
  cbv zeta. rewrite simplified_score_bounding.
  destruct (Qeq_bool _ 0) eqn:E; [left; reflexivity|].
  right. apply Qeq_bool_neq in E.
  apply bounding_adjustment_unit, ratio_unit; assumption.
Qed.
End NonNegativeCounts.

(** In exact arithmetic, with twelve components that are not negative, each
    strategy returns the sentinel -1 or a value of the closed interval from
    0 to 1.  (On binary64 rounding and overflow break this.) *)
Theorem score_sentinel_or_unit (s : Strategy)
    (votes_same votes_different votes_absent votes_abstain
     agreements_same agreements_different : ScoreFloatPair Q) :
  nonneg votes_same -> nonneg votes_different ->
  nonneg votes_absent -> nonneg votes_abstain ->
  nonneg agreements_same -> nonneg agreements_different ->
  let r := score_of s votes_same votes_different votes_absent votes_abstain
             agreements_same agreements_different in
  r = -1 \/ 0 <= r <= 1.
Proof.
  intros. destruct s; cbn [score_of].
  - apply public_whip_sentinel_or_unit; assumption.
  - apply gradiated_sentinel_or_unit; assumption.
  - apply simplified_sentinel_or_unit; assumption.
Qed.

Lemma score_sentinel_or_unit_witness :
  (score_of PublicWhip (mkPair 2 0) zero (mkPair 3 0) zero zero zero = -1
   \/ 0 <= score_of PublicWhip (mkPair 2 0) zero (mkPair 3 0) zero zero zero <= 1)
  /\ (score_of SimplifiedGradiated (mkPair 0 40) zero (mkPair 0 2) zero zero zero = -1
      \/ 0 <= score_of SimplifiedGradiated (mkPair 0 40) zero (mkPair 0 2) zero
                zero zero <= 1)
  /\ (score_of Simplified (mkPair 7 0) zero zero zero zero zero = -1
      \/ 0 <= score_of Simplified (mkPair 7 0) zero zero zero zero zero <= 1).
Proof.
  split; [|split].
  - apply (score_sentinel_or_unit PublicWhip (mkPair 2 0) zero (mkPair 3 0)
             zero zero zero); split; cbn; lra.
  - apply (score_sentinel_or_unit SimplifiedGradiated (mkPair 0 40) zero
             (mkPair 0 2) zero zero zero); split; cbn; lra.
  - apply (score_sentinel_or_unit Simplified (mkPair 7 0) zero zero
             zero zero zero); split; cbn; lra.
Defined.

(** C4. When all six pairs are zero every strategy returns -1. *)
Theorem score_all_zero (s : Strategy)
    (votes_same votes_different votes_absent votes_abstain
     agreements_same agreements_different : ScoreFloatPair Q) :
  is_zero votes_same -> is_zero votes_different ->
  is_zero votes_absent -> is_zero votes_abstain ->
  is_zero agreements_same -> is_zero agreements_different ->
  score_of s votes_same votes_different votes_absent votes_abstain
           agreements_same agreements_different = -1.
Proof.
  intros Hs Hd Ha Hb Hgs Hgd.
  destruct s; cbn [score_of].
  - open_pairs votes_same votes_different votes_absent votes_abstain
               agreements_same agreements_different.
    unfold_public_whip.
    destruct Hs, Hd, Ha, Hb.
    rewrite Qeq_bool_true by lra.
    rewrite (Qle_bool_true (aw + as_) 0) by lra.
    cbn [negb andb].
    rewrite Qeq_bool_true by lra. reflexivity.
  - rewrite gradiated_score_bounding.
    rewrite Qeq_bool_true; [reflexivity|].
    open_pairs votes_same votes_different votes_absent votes_abstain
               agreements_same agreements_different.
    unfold_gradiated. lra.
  - rewrite simplified_score_bounding.
    rewrite Qeq_bool_true; [reflexivity|].
    open_pairs votes_same votes_different votes_absent votes_abstain
               agreements_same agreements_different.
    unfold_simplified. lra.
Qed.

Lemma score_all_zero_witness :
  score_of PublicWhip zero zero zero zero zero zero = -1
  /\ score_of SimplifiedGradiated zero zero zero zero zero zero = -1
  /\ score_of Simplified zero zero zero zero zero zero = -1.
Proof.
  split; [|split].
  - apply (score_all_zero PublicWhip zero zero zero zero zero zero);
      split; reflexivity.
  - apply (score_all_zero SimplifiedGradiated zero zero zero zero zero zero);
      split; reflexivity.
  - apply (score_all_zero Simplified zero zero zero zero zero zero);
      split; reflexivity.
Defined.

(** In exact arithmetic [SimplifiedScore] gives weak votes no weight: with
    every strong component zero the available points are zero, whatever the
    weak components are, and the result is -1.  (On binary64 this needs the
    weak sums to be finite.) *)
Theorem simplified_weak_only
    (votes_same votes_different votes_absent votes_abstain
     agreements_same agreements_different : ScoreFloatPair Q) :
  strong votes_same == 0 -> strong votes_different == 0 ->
  strong votes_absent == 0 -> strong votes_abstain == 0 ->
  strong agreements_same == 0 -> strong agreements_different == 0 ->
  SimplifiedScore.avaliable_points votes_same votes_different votes_absent
    votes_abstain agreements_same agreements_different == 0
  /\ SimplifiedScore.score votes_same votes_different votes_absent
       votes_abstain agreements_same agreements_different = -1.
Proof.
  intros Hs Hd Ha Hb Hgs Hgd.
  assert (E : SimplifiedScore.avaliable_points votes_same votes_different
                votes_absent votes_abstain agreements_same
                agreements_different == 0).
  { open_pairs votes_same votes_different votes_absent votes_abstain
               agreements_same agreements_different.
    unfold_simplified. lra. }
  split; [exact E|].
  rewrite simplified_score_bounding.
  rewrite Qeq_bool_true by exact E. reflexivity.
Qed.

Lemma simplified_weak_only_witness :
  SimplifiedScore.avaliable_points (mkPair 7 0) (mkPair 4 0) (mkPair 1 0)
    (mkPair 2 0) (mkPair 3 0) (mkPair 5 0) == 0
  /\ SimplifiedScore.score (mkPair 7 0) (mkPair 4 0) (mkPair 1 0)
       (mkPair 2 0) (mkPair 3 0) (mkPair 5 0) = -1.
Proof.
  apply (simplified_weak_only (mkPair 7 0) (mkPair 4 0) (mkPair 1 0)
           (mkPair 2 0) (mkPair 3 0) (mkPair 5 0)); reflexivity.
Defined.

(** ** [SimplifiedGradiatedScore]: the two caps *)

(** C5. The caps are applied one after the other on the strong absences.
    With available points and a quotient of at most 0.05: two strong
    absences that are less than a third of the strong total give 0.06; and
    when the strong absences, more than one, are also at least a third of
    the strong total, the second cap reads the 0.06 the first one left, finds
    it at most 0.15, and the result is 0.16. *)
Theorem gradiated_sequential_bounding
    (votes_same votes_different votes_absent votes_abstain
     agreements_same agreements_different : ScoreFloatPair Q) :
  let available :=
    SimplifiedGradiatedScore.avaliable_points votes_same votes_different
      votes_absent votes_abstain agreements_same agreements_different in
  let ratio :=
    SimplifiedGradiatedScore.points votes_different votes_absent votes_abstain
      agreements_different / available in
  let total :=
    strong votes_same + strong votes_different + strong votes_absent
    + strong votes_abstain in
  0 < available -> ratio <= 0.05 ->
  (strong votes_absent == 2 -> 2 < total / 3 ->
   SimplifiedGradiatedScore.score votes_same votes_different votes_absent
     votes_abstain agreements_same agreements_different = 0.06)
  /\ (1 < strong votes_absent -> total / 3 <= strong votes_absent ->
      0.06 <= 0.15
      /\ SimplifiedGradiatedScore.score votes_same votes_different votes_absent
           votes_abstain agreements_same agreements_different = 0.16).
Proof.
  intros available ratio total Hav Hr.
  rewrite gradiated_score_bounding. fold available.
  rewrite Qeq_bool_false by lra. fold ratio.
  assert (Ht : SimplifiedGradiatedScore.total votes_same votes_different
                 votes_absent votes_abstain = total) by reflexivity.
  rewrite Ht. clearbody ratio total. clear Ht Hav available.
  unfold_bounding.
  split; [intros H2 Hthird | intros H1 Hthird; split; [lra|]];
    split_tests; try reflexivity; exfalso; lra.
Qed.

Lemma gradiated_sequential_bounding_witness :
  SimplifiedGradiatedScore.score (mkPair 0 40) zero (mkPair 0 2) zero zero zero
  = 0.06
  /\ SimplifiedGradiatedScore.score (mkPair 0 4) zero (mkPair 0 2) zero zero zero
     = 0.16.
Proof.
  split.
  - apply (gradiated_sequential_bounding (mkPair 0 40) zero (mkPair 0 2) zero
             zero zero); vm_compute; congruence.
  - apply (gradiated_sequential_bounding (mkPair 0 4) zero (mkPair 0 2) zero
             zero zero); vm_compute; congruence.
Defined.

(** C10. With no strong vote at all and available points, the strong total
    is zero and the test of the second cap holds as 0 >= 0: a quotient of at
    most 0.15 comes back as 0.16 and one of at least 0.85 as 0.84.  A perfect
    alignment on weak votes only thus scores 0.16, not 0. *)
Theorem gradiated_weak_only_bounding
    (votes_same votes_different votes_absent votes_abstain
     agreements_same agreements_different : ScoreFloatPair Q) :
  let available :=
    SimplifiedGradiatedScore.avaliable_points votes_same votes_different
      votes_absent votes_abstain agreements_same agreements_different in
  let points :=
    SimplifiedGradiatedScore.points votes_different votes_absent votes_abstain
      agreements_different in
  let total :=
    SimplifiedGradiatedScore.total votes_same votes_different votes_absent
      votes_abstain in
  let result :=
    SimplifiedGradiatedScore.score votes_same votes_different votes_absent
      votes_abstain agreements_same agreements_different in
  strong votes_same == 0 -> strong votes_different == 0 ->
  strong votes_absent == 0 -> strong votes_abstain == 0 ->
  0 < available ->
  total == 0
  /\ total / 3 <= strong votes_absent
  /\ (points / available <= 0.15 -> result = 0.16)
  /\ (0.85 <= points / available -> result = 0.84)
  /\ (0.15 < points / available < 0.85 -> result = points / available)
  /\ (points == 0 -> result = 0.16).
Proof.
  intros available points total result Hs Hd Ha Hb Hav.
  assert (Ht : total == 0).
  { subst total. unfold SimplifiedGradiatedScore.total, add. to_Q. lra. }
  assert (Hz : points == 0 -> points / available == 0).
  { intros E. rewrite E. field. lra. }
  subst result. rewrite gradiated_score_bounding.
  fold available points total.
  rewrite Qeq_bool_false by lra.
  generalize dependent (points / available). intros ratio Hz.
  clearbody total points. clear Hav available.
  unfold_bounding.
  split; [exact Ht|]. split; [lra|].
  repeat split; intros; try (assert (ratio == 0) by auto);
    split_tests; try reflexivity; exfalso; lra.
Qed.

Lemma gradiated_weak_only_bounding_witness :
  SimplifiedGradiatedScore.score (mkPair 5 0) zero zero zero zero zero = 0.16
  /\ SimplifiedGradiatedScore.score zero (mkPair 5 0) zero zero zero zero = 0.84
  /\ SimplifiedGradiatedScore.score (mkPair 1 0) (mkPair 1 0) zero zero zero zero
     = SimplifiedGradiatedScore.points (mkPair 1 0) zero zero zero
       / SimplifiedGradiatedScore.avaliable_points (mkPair 1 0) (mkPair 1 0)
           zero zero zero zero.
Proof.
  split; [|split].
  - apply (gradiated_weak_only_bounding (mkPair 5 0) zero zero zero zero zero);
      vm_compute; congruence.
  - apply (gradiated_weak_only_bounding zero (mkPair 5 0) zero zero zero zero);
      vm_compute; congruence.
  - apply (gradiated_weak_only_bounding (mkPair 1 0) (mkPair 1 0) zero zero
             zero zero); vm_compute; split; congruence.
Defined.

(** ** [SimplifiedScore] against [SimplifiedGradiatedScore] *)

Ltac unfold_scheme :=
  unfold spec_simplified_scheme, add, divide in *; to_Q; thirds.

(** [SimplifiedGradiatedScore.score] is the scheme of section 4.4 at the
    weights 10 and 50. *)
Lemma gradiated_is_scheme
    (votes_same votes_different votes_absent votes_abstain
     agreements_same agreements_different : ScoreFloatPair Q) :
  SimplifiedGradiatedScore.score votes_same votes_different votes_absent
    votes_abstain agreements_same agreements_different
  == spec_simplified_scheme (mkPair 10 50) votes_same votes_different
       votes_absent votes_abstain agreements_same agreements_different.
Proof.
  rewrite gradiated_score_bounding.
  open_pairs votes_same votes_different votes_absent votes_abstain
             agreements_same agreements_different.
  unfold_scheme. unfold_gradiated.
  match goal with
  | |- (if Qeq_bool ?a1 0 then _ else bounding_adjustment _ _ (?p1 / _))
       == (if Qeq_bool ?a2 0 then _ else bounding_adjustment _ _ (?p2 / _)) =>
      assert (Ea : a1 == a2) by ring; assert (Ep : p1 == p2) by ring;
      destruct (Qeq_bool a1 0) eqn:E1; destruct (Qeq_bool a2 0) eqn:E2;
      bools_to_props; try reflexivity; try (exfalso; lra)
  end.
  apply bounding_adjustment_proper. rewrite Ea, Ep. reflexivity.
Qed.

(** [SimplifiedScore.score] is the same scheme with the weak weight set to
    zero: its own strong weight, 10 where the gradiated one has 50, cancels
    in the quotient. *)
Lemma simplified_is_scheme_without_weak
    (votes_same votes_different votes_absent votes_abstain
     agreements_same agreements_different : ScoreFloatPair Q) :
  SimplifiedScore.score votes_same votes_different votes_absent
    votes_abstain agreements_same agreements_different
  == spec_simplified_scheme (mkPair 0 50) votes_same votes_different
       votes_absent votes_abstain agreements_same agreements_different.
Proof.
  rewrite simplified_score_bounding.
  open_pairs votes_same votes_different votes_absent votes_abstain
             agreements_same agreements_different.
  unfold_scheme. unfold_simplified.
  match goal with
  | |- (if Qeq_bool ?a1 0 then _ else bounding_adjustment _ _ (?p1 / _))
       == (if Qeq_bool ?a2 0 then _ else bounding_adjustment _ _ (?p2 / _)) =>
      assert (Ea : a2 == 5 * a1) by ring; assert (Ep : p2 == 5 * p1) by ring;
      destruct (Qeq_bool a1 0) eqn:E1; destruct (Qeq_bool a2 0) eqn:E2;
      bools_to_props; try reflexivity; try (exfalso; lra)
  end.
  apply bounding_adjustment_proper. rewrite Ea, Ep. field.
  intro E. apply E1. lra.
Qed.

(** With no weak count the scheme is the same at the weak weights 0 and 10. *)
Lemma scheme_weak_weight_irrelevant
    (votes_same votes_different votes_absent votes_abstain
     agreements_same agreements_different : ScoreFloatPair Q) :
  weak votes_same == 0 -> weak votes_different == 0 ->
  weak votes_abstain == 0 ->
  weak agreements_same == 0 -> weak agreements_different == 0 ->
  spec_simplified_scheme (mkPair 0 50) votes_same votes_different
    votes_absent votes_abstain agreements_same agreements_different
  == spec_simplified_scheme (mkPair 10 50) votes_same votes_different
       votes_absent votes_abstain agreements_same agreements_different.
Proof.
  intros Hs Hd Hb Hgs Hgd.
  open_pairs votes_same votes_different votes_absent votes_abstain
             agreements_same agreements_different.
  unfold_scheme.
  match goal with
  | |- (if Qeq_bool ?a1 0 then _ else bounding_adjustment _ _ (?p1 / _))
       == (if Qeq_bool ?a2 0 then _ else bounding_adjustment _ _ (?p2 / _)) =>
      assert (Ea : a1 == a2) by lra; assert (Ep : p1 == p2) by lra;
      destruct (Qeq_bool a1 0) eqn:E1; destruct (Qeq_bool a2 0) eqn:E2;
      bools_to_props; try reflexivity; try (exfalso; lra)
  end.
  apply bounding_adjustment_proper. rewrite Ea, Ep. reflexivity.
Qed.

(** In exact arithmetic [SimplifiedScore] is [SimplifiedGradiatedScore]
    with the weak weight set to zero: both are the scheme of section 4.4,
    at the vote weights (0, 50) and (10, 50), and on inputs whose six weak
    components are zero the two functions return equal values.  (On binary64
    the two quotients can round apart.) *)
Theorem simplified_equals_gradiated_without_weak
    (votes_same votes_different votes_absent votes_abstain
     agreements_same agreements_different : ScoreFloatPair Q) :
  SimplifiedGradiatedScore.score votes_same votes_different votes_absent
    votes_abstain agreements_same agreements_different
  == spec_simplified_scheme (mkPair 10 50) votes_same votes_different
       votes_absent votes_abstain agreements_same agreements_different
  /\ SimplifiedScore.score votes_same votes_different votes_absent
       votes_abstain agreements_same agreements_different
     == spec_simplified_scheme (mkPair 0 50) votes_same votes_different
          votes_absent votes_abstain agreements_same agreements_different
  /\ (weak votes_same == 0 -> weak votes_different == 0 ->
      weak votes_absent == 0 -> weak votes_abstain == 0 ->
      weak agreements_same == 0 -> weak agreements_different == 0 ->
      SimplifiedScore.score votes_same votes_different votes_absent
        votes_abstain agreements_same agreements_different
      == SimplifiedGradiatedScore.score votes_same votes_different
           votes_absent votes_abstain agreements_same agreements_different).
Proof.
  split; [apply gradiated_is_scheme|].
  split; [apply simplified_is_scheme_without_weak|].
  intros Hs Hd _ Hb Hgs Hgd.
  rewrite simplified_is_scheme_without_weak, gradiated_is_scheme.
  apply scheme_weak_weight_irrelevant; assumption.
Qed.

Lemma simplified_equals_gradiated_without_weak_witness :
  SimplifiedScore.score (mkPair 0 9) (mkPair 0 1) (mkPair 0 2) (mkPair 0 2)
    (mkPair 0 3) (mkPair 0 1)
  == SimplifiedGradiatedScore.score (mkPair 0 9) (mkPair 0 1) (mkPair 0 2)
       (mkPair 0 2) (mkPair 0 3) (mkPair 0 1).
Proof.
  apply (simplified_equals_gradiated_without_weak (mkPair 0 9) (mkPair 0 1)
           (mkPair 0 2) (mkPair 0 2) (mkPair 0 3) (mkPair 0 1));
    reflexivity.
Defined.

(** * Further properties of the module *)

(** ** No division raises *)

(** In every arithmetic where the literals 2 and 3 are not zero, the
    [score] of each strategy, computed with a division that raises on a zero
    divisor, returns what the plain [score] returns: the one division by a
    computed value is guarded by the test [avaliable_points == 0]. *)
Lemma checked_score_is_score {F : Type} `{FloatOps F} (s : Strategy)
    (votes_same votes_different votes_absent votes_abstain
     agreements_same agreements_different : ScoreFloatPair F) :
  feqb (lit 2) (lit 0) = false ->
  feqb (lit 3) (lit 0) = false ->
  Checked.score_of s votes_same votes_different votes_absent votes_abstain
                   agreements_same agreements_different
  = Some (score_of s votes_same votes_different votes_absent votes_abstain
                   agreements_same agreements_different).
Proof.
  intros H2 H3. destruct s; cbn [Checked.score_of score_of].
  - unfold Checked.public_whip_score, PublicWhipScore.score, Checked.div.
    cbv zeta.
    match goal with
    | |- (if ?g then _ else _) = _ => destruct g; [reflexivity|]
    end.
    match goal with
    | |- (if ?g then _ else _) = _ => destruct g; reflexivity
    end.
  - unfold Checked.simplified_body, Checked.divide, Checked.div.
    rewrite H2. cbv zeta. cbn [weak strong].
    unfold SimplifiedGradiatedScore.score. cbv zeta.
    match goal with
    | |- (if feqb ?a _ then _ else _) = Some (if feqb ?b _ then _ else _) =>
        change b with a; destruct (feqb a (lit 0)); [reflexivity|]
    end.
    rewrite H3. reflexivity.
  - unfold Checked.simplified_body, Checked.divide, Checked.div.
    rewrite H2. cbv zeta. cbn [weak strong].
    unfold SimplifiedScore.score. cbv zeta.
    match goal with
    | |- (if feqb ?a _ then _ else _) = Some (if feqb ?b _ then _ else _) =>
        change b with a; destruct (feqb a (lit 0)); [reflexivity|]
    end.
    rewrite H3. reflexivity.
Qed.

(** X1. Over the rationals no strategy raises [ZeroDivisionError], on any
    input: the score computed with the raising division is the plain one. *)
Theorem score_never_raises (s : Strategy)
    (votes_same votes_different votes_absent votes_abstain
     agreements_same agreements_different : ScoreFloatPair Q) :
  Checked.score_of s votes_same votes_different votes_absent votes_abstain
                   agreements_same agreements_different
  = Some (score_of s votes_same votes_different votes_absent votes_abstain
                   agreements_same agreements_different).
Proof. apply checked_score_is_score; reflexivity. Qed.

(** ** [PublicWhipScore] on counts that are not negative *)

(** The points are part of the available points. *)
Lemma public_whip_points_le
    (votes_same votes_different votes_absent votes_abstain : ScoreFloatPair Q) :
  nonneg votes_same -> nonneg votes_different ->
  nonneg votes_absent -> nonneg votes_abstain ->
  0 <= PublicWhipScore.points votes_different votes_absent votes_abstain
    <= PublicWhipScore.avaliable_points votes_same votes_different
         votes_absent votes_abstain.
Proof.
  intros. apply (public_whip_points_bounds _ _ _ _ zero zero);
    try assumption; split; cbn; lra.
Qed.

(** As soon as one vote was cast or abstained on, the result is the
    quotient, over a positive denominator. *)
Lemma public_whip_voted
    (votes_same votes_different votes_absent votes_abstain
     agreements_same agreements_different : ScoreFloatPair Q) :
  nonneg votes_same -> nonneg votes_different ->
  nonneg votes_absent -> nonneg votes_abstain ->
  0 < PublicWhipScore.all_others votes_same votes_different votes_abstain ->
  0 < PublicWhipScore.avaliable_points votes_same votes_different
        votes_absent votes_abstain
  /\ PublicWhipScore.score votes_same votes_different votes_absent
       votes_abstain agreements_same agreements_different
     = PublicWhipScore.points votes_different votes_absent votes_abstain
       / PublicWhipScore.avaliable_points votes_same votes_different
           votes_absent votes_abstain.
Proof.
  intros Hs Hd Ha Hb Ho.
  open_pairs votes_same votes_different votes_absent votes_abstain
             agreements_same agreements_different.
  unfold_public_whip.
  assert (Hav : 0 < 10.0 * sw + 10.0 * dw + 50.0 * ss + 50.0 * ds
                    + 50.0 * (as_ + bs) + 2.0 * (aw + bw)) by lra.
  split; [exact Hav|].
  rewrite (Qeq_bool_false (sw + ss + dw + ds + bw + bs) 0) by lra.
  cbn [andb]. rewrite Qeq_bool_false by lra. reflexivity.
Qed.

(** Without any such vote it is the sentinel. *)
Lemma public_whip_unvoted
    (votes_same votes_different votes_absent votes_abstain
     agreements_same agreements_different : ScoreFloatPair Q) :
  nonneg votes_absent ->
  is_zero votes_same -> is_zero votes_different -> is_zero votes_abstain ->
  PublicWhipScore.score votes_same votes_different votes_absent
    votes_abstain agreements_same agreements_different = -1.
Proof.
  intros Ha Zs Zd Zb.
  open_pairs votes_same votes_different votes_absent votes_abstain
             agreements_same agreements_different.
  unfold_public_whip.
  rewrite (Qeq_bool_true (sw + ss + dw + ds + bw + bs) 0) by lra.
  cbn [andb].
  destruct (Qle_bool (aw + as_) 0) eqn:E; cbn [negb]; [|reflexivity].
  apply Qle_bool_iff in E.
  rewrite Qeq_bool_true by lra. reflexivity.
Qed.

(** Counts that are not negative and do not all vanish have a positive sum. *)
Lemma public_whip_others_positive
    (votes_same votes_different votes_abstain : ScoreFloatPair Q) :
  nonneg votes_same -> nonneg votes_different -> nonneg votes_abstain ->
  ~ (is_zero votes_same /\ is_zero votes_different /\ is_zero votes_abstain) ->
  0 < PublicWhipScore.all_others votes_same votes_different votes_abstain.
Proof.
  intros Hs Hd Hb Hnz.
  destruct votes_same as [sw ss], votes_different as [dw ds],
           votes_abstain as [bw bs].
  unfold nonneg, is_zero in *. unfold PublicWhipScore.all_others.
  to_Q. apply Qnot_le_lt. intros Hle. apply Hnz. repeat split; lra.
Qed.

(** [score] is [public_whip_decide] on the four quantities. *)
Lemma public_whip_score_decide
    (votes_same votes_different votes_absent votes_abstain
     agreements_same agreements_different : ScoreFloatPair Q) :
  PublicWhipScore.score votes_same votes_different votes_absent votes_abstain
                        agreements_same agreements_different
  = public_whip_decide
      (PublicWhipScore.all_others votes_same votes_different votes_abstain)
      (PublicWhipScore.all_absences votes_absent)
      (PublicWhipScore.avaliable_points votes_same votes_different
         votes_absent votes_abstain)
      (PublicWhipScore.points votes_different votes_absent votes_abstain).
Proof. reflexivity. Qed.

(** Two sets of quantities that pass the same tests and have the same
    quotient are decided alike. *)
Lemma public_whip_decide_alike (o1 b1 a1 p1 o2 b2 a2 p2 : Q) :
  (o1 == 0 /\ 0 < b1 <-> o2 == 0 /\ 0 < b2) -> (a1 == 0 <-> a2 == 0) ->
  (~ a1 == 0 -> p1 / a1 == p2 / a2) ->
  public_whip_decide o1 b1 a1 p1 == public_whip_decide o2 b2 a2 p2.
Proof.
  intros Hg Ha Hr. unfold public_whip_decide. to_Q.
  split_tests; try reflexivity; try (exfalso; tauto);
    try (exfalso; intuition lra).
  all: apply Hr; assumption.
Qed.

(** X3. For counts that are not negative, [PublicWhipScore.score] returns
    -1 exactly when no vote was the same, different or abstained on,
    whatever the absences. *)
Theorem public_whip_sentinel_iff
    (votes_same votes_different votes_absent votes_abstain
     agreements_same agreements_different : ScoreFloatPair Q) :
  nonneg votes_same -> nonneg votes_different ->
  nonneg votes_absent -> nonneg votes_abstain ->
  (PublicWhipScore.score votes_same votes_different votes_absent votes_abstain
                         agreements_same agreements_different == -1
   <-> is_zero votes_same /\ is_zero votes_different /\ is_zero votes_abstain).
Proof.
  intros Hs Hd Ha Hb. split.
  - intros E.
    destruct (Qeq_bool (weak votes_same) 0 && Qeq_bool (strong votes_same) 0
              && Qeq_bool (weak votes_different) 0
              && Qeq_bool (strong votes_different) 0
              && Qeq_bool (weak votes_abstain) 0
              && Qeq_bool (strong votes_abstain) 0) eqn:Z.
    + repeat (apply andb_true_iff in Z; destruct Z as [Z ?]).
      bools_to_props. unfold is_zero. auto.
    + exfalso.
      assert (Ho : 0 < PublicWhipScore.all_others votes_same votes_different
                         votes_abstain).
      { apply public_whip_others_positive; try assumption.
        intros ([Z1 Z2] & [Z3 Z4] & [Z5 Z6]).
        rewrite !Qeq_bool_true in Z by assumption. discriminate Z. }
      destruct (public_whip_voted _ _ _ _ agreements_same agreements_different
                  Hs Hd Ha Hb Ho) as [Hav Hr].
      pose proof (public_whip_points_le _ _ _ _ Hs Hd Ha Hb) as [Hp Hpa].
      rewrite Hr in E.
      assert (0 <= PublicWhipScore.points votes_different votes_absent
                     votes_abstain
                   / PublicWhipScore.avaliable_points votes_same
                       votes_different votes_absent votes_abstain <= 1)
        by (apply ratio_unit; lra).
      lra.
  - intros (Zs & Zd & Zb).
    rewrite (public_whip_unvoted votes_same votes_different votes_absent
               votes_abstain agreements_same agreements_different);
      [reflexivity | assumption ..].
Qed.

Lemma public_whip_sentinel_iff_witness :
  PublicWhipScore.score zero zero (mkPair 3 4) zero zero zero == -1
  <-> is_zero zero /\ is_zero zero /\ is_zero zero.
Proof.
  apply (public_whip_sentinel_iff zero zero (mkPair 3 4) zero zero zero);
    split; cbn; lra.
Defined.

(** X7. Abstentions are treated as absences: when at least one vote was the
    same or different, counting the abstentions among the absences, or the
    absences among the abstentions, leaves [PublicWhipScore.score] as it
    is. *)
Theorem public_whip_abstentions_as_absences
    (votes_same votes_different votes_absent votes_abstain
     agreements_same agreements_different : ScoreFloatPair Q) :
  nonneg votes_same -> nonneg votes_different ->
  nonneg votes_absent -> nonneg votes_abstain ->
  0 < weak votes_same + strong votes_same
      + weak votes_different + strong votes_different ->
  PublicWhipScore.score votes_same votes_different
    (add votes_absent votes_abstain) zero agreements_same agreements_different
  == PublicWhipScore.score votes_same votes_different votes_absent
       votes_abstain agreements_same agreements_different
  /\ PublicWhipScore.score votes_same votes_different
       zero (add votes_absent votes_abstain) agreements_same
       agreements_different
     == PublicWhipScore.score votes_same votes_different votes_absent
          votes_abstain agreements_same agreements_different.
Proof.
  intros Hs Hd Ha Hb Hv.
  rewrite !public_whip_score_decide.
  open_pairs votes_same votes_different votes_absent votes_abstain
             agreements_same agreements_different.
  unfold zero. unfold_public_whip.
  split; apply public_whip_decide_alike;
    try (split; intros; exfalso; lra);
    try (split; intros [? ?]; exfalso; lra);
    intros _; apply Qdiv_comp; ring.
Qed.

Lemma public_whip_abstentions_as_absences_witness :
  PublicWhipScore.score (mkPair 2 1) (mkPair 0 1)
    (add (mkPair 3 0) (mkPair 0 2)) zero zero zero
  == PublicWhipScore.score (mkPair 2 1) (mkPair 0 1) (mkPair 3 0) (mkPair 0 2)
       zero zero
  /\ PublicWhipScore.score (mkPair 2 1) (mkPair 0 1)
       zero (add (mkPair 3 0) (mkPair 0 2)) zero zero
     == PublicWhipScore.score (mkPair 2 1) (mkPair 0 1) (mkPair 3 0)
          (mkPair 0 2) zero zero.
Proof.
  apply (public_whip_abstentions_as_absences (mkPair 2 1) (mkPair 0 1)
           (mkPair 3 0) (mkPair 0 2) zero zero);
    try (split; cbn; lra); cbn; lra.
Defined.

(** ** The simplified strategies *)

(** Where neither test on the strong absences holds, nothing is capped. *)
Lemma bounding_adjustment_off (absent_strong total score : Q) :
  absent_strong <= 1 -> absent_strong < total / 3 ->
  bounding_adjustment absent_strong total score = score.
Proof.
  intros H1 H3. unfold_bounding.
  rewrite (Qle_bool_true absent_strong 1) by exact H1.
  rewrite Qle_bool_lt_false by exact H3. reflexivity.
Qed.

(** X13. Nothing is capped when the strong absences are at most one and
    less than a third of the strong total, nor when the quotient is strictly
    between 0.15 and 0.85: the simplified scores are then the plain
    quotient of their points by their available points. *)
Theorem simplified_uncapped
    (votes_same votes_different votes_absent votes_abstain
     agreements_same agreements_different : ScoreFloatPair Q) :
  let total :=
    strong votes_same + strong votes_different + strong votes_absent
    + strong votes_abstain in
  let g_available :=
    SimplifiedGradiatedScore.avaliable_points votes_same votes_different
      votes_absent votes_abstain agreements_same agreements_different in
  let g_ratio :=
    SimplifiedGradiatedScore.points votes_different votes_absent votes_abstain
      agreements_different / g_available in
  let s_available :=
    SimplifiedScore.avaliable_points votes_same votes_different
      votes_absent votes_abstain agreements_same agreements_different in
  let s_ratio :=
    SimplifiedScore.points votes_different votes_absent votes_abstain
      agreements_different / s_available in
  (~ g_available == 0 ->
   (strong votes_absent <= 1 /\ strong votes_absent < total / 3)
   \/ 0.15 < g_ratio < 0.85 ->
   SimplifiedGradiatedScore.score votes_same votes_different votes_absent
     votes_abstain agreements_same agreements_different = g_ratio)
  /\ (~ s_available == 0 ->
      (strong votes_absent <= 1 /\ strong votes_absent < total / 3)
      \/ 0.15 < s_ratio < 0.85 ->
      SimplifiedScore.score votes_same votes_different votes_absent
        votes_abstain agreements_same agreements_different = s_ratio).
Proof.
  intros total g_available g_ratio s_available s_ratio.
  split; intros Hav Hoff.
  - rewrite gradiated_score_bounding. fold g_available.
    rewrite Qeq_bool_false by exact Hav. fold g_ratio.
    destruct Hoff as [[H1 H3]|Hmid].
    + apply bounding_adjustment_off; assumption.
    + apply bounding_adjustment_middle; assumption.
  - rewrite simplified_score_bounding. fold s_available.
    rewrite Qeq_bool_false by exact Hav. fold s_ratio.
    destruct Hoff as [[H1 H3]|Hmid].
    + apply bounding_adjustment_off; assumption.
    + apply bounding_adjustment_middle; assumption.
Qed.

Lemma simplified_uncapped_witness :
  SimplifiedGradiatedScore.score (mkPair 0 3) zero (mkPair 0 1) zero zero zero
  = SimplifiedGradiatedScore.points zero (mkPair 0 1) zero zero
    / SimplifiedGradiatedScore.avaliable_points (mkPair 0 3) zero (mkPair 0 1)
        zero zero zero
  /\ SimplifiedScore.score (mkPair 0 1) (mkPair 0 1) (mkPair 0 9) zero zero
       zero
     = SimplifiedScore.points (mkPair 0 1) (mkPair 0 9) zero zero
       / SimplifiedScore.avaliable_points (mkPair 0 1) (mkPair 0 1)
           (mkPair 0 9) zero zero zero.
Proof.
  split.
  - apply (simplified_uncapped (mkPair 0 3) zero (mkPair 0 1) zero zero zero).
    + vm_compute. congruence.
    + left. vm_compute. split; congruence.
  - apply (simplified_uncapped (mkPair 0 1) (mkPair 0 1) (mkPair 0 9) zero
             zero zero).
    + vm_compute. congruence.
    + right. vm_compute. split; congruence.
Defined.

(** * Properties on binary64 *)

(** What follows is proved for all doubles, from the IEEE 754 description of
    the primitive operations ([FloatAxioms]). *)

Section Doubles.
Local Open Scope float_scope.

(** ** Zeros, finite doubles and counts *)

Lemma eqb_zero_SF (x : float) :
  (x =? 0) = true <-> SFzero (Prim2SF x) = true.
Proof.
  rewrite FloatAxioms.eqb_spec. change (Prim2SF 0) with (S754_zero false).
  destruct (Prim2SF x) as [s|s| |s m e]; cbn; try destruct s; cbn;
    split; congruence.
Qed.

Lemma is_finite_SF (x : float) :
  is_finite x = true -> SFfinite (Prim2SF x) = true.
Proof.
  unfold is_finite, is_nan, is_infinity. rewrite !FloatAxioms.eqb_spec, FloatAxioms.abs_spec.
  change (Prim2SF infinity) with (S754_infinity false).
  destruct (Prim2SF x) as [s|s| |s m e]; cbn; try destruct s; cbn; congruence.
Qed.

Lemma SFzero_finite (x : spec_float) : SFzero x = true -> SFfinite x = true.
Proof. destruct x; cbn; congruence. Qed.

(** A zero times a finite double, either way round, is a zero. *)
Lemma mul_zero_l (c y : float) :
  SFzero (Prim2SF c) = true -> SFfinite (Prim2SF y) = true ->
  SFzero (Prim2SF (c * y)) = true.
Proof.
  rewrite FloatAxioms.mul_spec. unfold SF64mul, SFmul.
  destruct (Prim2SF c), (Prim2SF y); cbn; congruence.
Qed.

Lemma mul_zero_r (c y : float) :
  SFfinite (Prim2SF c) = true -> SFzero (Prim2SF y) = true ->
  SFzero (Prim2SF (c * y)) = true.
Proof.
  rewrite FloatAxioms.mul_spec. unfold SF64mul, SFmul.
  destruct (Prim2SF c), (Prim2SF y); cbn; congruence.
Qed.

(** The sum of two zeros is a zero. *)
Lemma add_zero (x y : float) :
  SFzero (Prim2SF x) = true -> SFzero (Prim2SF y) = true ->
  SFzero (Prim2SF (x + y)) = true.
Proof.
  rewrite FloatAxioms.add_spec. unfold SF64add, SFadd.
  destruct (Prim2SF x) as [s|s| |s m e], (Prim2SF y) as [s'|s'| |s' m' e'];
    cbn; try congruence.
  destruct s, s'; reflexivity.
Qed.

(** [+0.0] times a count is [+0.0] itself. *)
Lemma mul_zero_count (y : float) : is_count y = true -> 0 * y = 0.
Proof.
  unfold is_count. intros Hy. apply Prim2SF_inj.
  rewrite FloatAxioms.mul_spec. change (Prim2SF 0) with (S754_zero false).
  unfold SF64mul, SFmul.
  destruct (Prim2SF y) as [s|s| |s m e]; try destruct s; cbn in *; congruence.
Qed.

(** ** The order on doubles that are not NaN *)

Lemma SFcompare_none (x y : spec_float) :
  SFcompare x y = None -> x = S754_nan \/ y = S754_nan.
Proof.
  destruct x as [s|s| |s m e], y as [s'|s'| |s' m' e']; cbn; auto;
    try destruct s; try destruct s'; discriminate.
Qed.

Lemma SFcompare_antisym (x y : spec_float) :
  SFcompare y x = option_map CompOpp (SFcompare x y).
Proof.
  destruct x as [s|s| |s m e], y as [s'|s'| |s' m' e']; cbn; auto;
    try (destruct s; try destruct s'; reflexivity);
    try (destruct s'; reflexivity).
  pose proof (Pos.compare_cont_antisym m m' Eq) as A. cbn in A.
  destruct s, s'; cbn; try reflexivity;
    rewrite (Z.compare_antisym e e'), <- A;
    destruct (e ?= e')%Z; cbn; try reflexivity;
    destruct (Pos.compare_cont Eq m m'); reflexivity.
Qed.

Lemma is_nan_SF (x : float) : is_nan x = false -> Prim2SF x <> S754_nan.
Proof.
  unfold is_nan. rewrite FloatAxioms.eqb_spec. intros H E. rewrite E in H. discriminate H.
Qed.

(** Of two doubles that are not NaN, the one that is not at most the other
    is greater. *)
Lemma not_leb_ltb (x y : float) :
  is_nan x = false -> is_nan y = false ->
  (x <=? y) = false -> (y <? x) = true.
Proof.
  intros Hx Hy. apply is_nan_SF in Hx. apply is_nan_SF in Hy.
  rewrite FloatAxioms.leb_spec, FloatAxioms.ltb_spec. unfold SFleb, SFltb.
  rewrite (SFcompare_antisym (Prim2SF x) (Prim2SF y)).
  destruct (SFcompare (Prim2SF x) (Prim2SF y)) as [[| |]|] eqn:E; cbn;
    try congruence.
  destruct (SFcompare_none _ _ E); contradiction.
Qed.
End Doubles.

Section DoubleClaims.
Local Open Scope float_scope.

Ltac to_float :=
  cbv [fadd fmul fdiv feqb fleb fltb float_ops] in *.

(** A literal of the source, read as a double, is a closed term. *)
Ltac closed_double := vm_compute; reflexivity.

(** ** [SimplifiedScore] on weak votes only *)

(** C9, as stated, fails on binary64: with every strong component zero and
    two weak counts of 2^1023 the weak sum overflows to infinity,
    [0.0 * inf] is NaN, the test [avaliable_points == 0] is false and the
    result is NaN, not -1. *)
Lemma simplified_weak_only_overflow :
  is_nan (SimplifiedScore.score huge_weak huge_weak float_zero float_zero
            float_zero float_zero) = true
  /\ (SimplifiedScore.score huge_weak huge_weak float_zero float_zero
        float_zero float_zero =? -1) = false
  /\ SimplifiedScore.score huge_weak huge_weak float_zero float_zero
       float_zero float_zero <> -1.
Proof.
  split; [closed_double|]. split; [closed_double|].
  intros E.
  assert (N : is_nan (SimplifiedScore.score huge_weak huge_weak float_zero
                        float_zero float_zero float_zero) = true)
    by closed_double.
  rewrite E in N. vm_compute in N. discriminate N.
Qed.

(** C9, amended. With every strong component zero, weak absences and weak
    abstentions finite, and the two weak sums the function forms finite,
    each term of the available points is a zero, so their sum compares
    equal to zero and the result is -1. *)
Theorem simplified_weak_only_finite
    (votes_same votes_different votes_absent votes_abstain
     agreements_same agreements_different : ScoreFloatPair float) :
  (strong votes_same =? 0) = true ->
  (strong votes_different =? 0) = true ->
  (strong votes_absent =? 0) = true ->
  (strong votes_abstain =? 0) = true ->
  (strong agreements_same =? 0) = true ->
  (strong agreements_different =? 0) = true ->
  is_finite (weak votes_same + weak votes_different) = true ->
  is_finite (weak agreements_same + weak agreements_different) = true ->
  is_finite (weak votes_absent) = true ->
  is_finite (weak votes_abstain) = true ->
  (SimplifiedScore.avaliable_points votes_same votes_different votes_absent
     votes_abstain agreements_same agreements_different =? 0) = true
  /\ SimplifiedScore.score votes_same votes_different votes_absent
       votes_abstain agreements_same agreements_different = -1.
Proof.
  intros Hs Hd Ha Hb Hgs Hgd Fsd Fg Fa Fb.
  apply eqb_zero_SF in Hs, Hd, Ha, Hb, Hgs, Hgd.
  apply is_finite_SF in Fsd, Fg, Fa, Fb.
  assert (Z : (SimplifiedScore.avaliable_points votes_same votes_different
                 votes_absent votes_abstain agreements_same
                 agreements_different =? 0) = true).
  { apply eqb_zero_SF.
    unfold SimplifiedScore.avaliable_points,
      SimplifiedScore.agreement_weight, SimplifiedScore.abstain_total_weight,
      SimplifiedScore.absence_total_weight, SimplifiedScore.vote_weight.
    cbn [weak strong]. to_float.
    repeat apply add_zero.
    - apply mul_zero_l; [closed_double | exact Fsd].
    - apply mul_zero_r; [closed_double | apply add_zero; assumption].
    - apply mul_zero_l; [closed_double | exact Fg].
    - apply mul_zero_r; [closed_double | apply add_zero; assumption].
    - apply mul_zero_l; [closed_double | exact Fa].
    - apply mul_zero_l; [closed_double | apply SFzero_finite; exact Ha].
    - apply mul_zero_l; [closed_double | exact Fb].
    - apply mul_zero_r; [closed_double | exact Hb]. }
  split; [exact Z|].
  unfold SimplifiedScore.score. cbv zeta.
  change (feqb ?a (lit 0)) with (a =? 0).
  rewrite Z. closed_double.
Qed.

Lemma simplified_weak_only_finite_witness :
  (SimplifiedScore.avaliable_points (float_pair 7 0) (float_pair 4 0)
     (float_pair 1 0) (float_pair 2 0) (float_pair 3 0) (float_pair 5 0)
   =? 0) = true
  /\ SimplifiedScore.score (float_pair 7 0) (float_pair 4 0) (float_pair 1 0)
       (float_pair 2 0) (float_pair 3 0) (float_pair 5 0) = -1.
Proof.
  apply (simplified_weak_only_finite (float_pair 7 0) (float_pair 4 0)
           (float_pair 1 0) (float_pair 2 0) (float_pair 3 0) (float_pair 5 0));
    vm_compute; reflexivity.
Defined.

(** ** The range of the score *)





(** ** [SimplifiedScore] against [SimplifiedGradiatedScore] *)





(** ** The caps *)

(** One cap of the source, between [lo] and [hi], on doubles: a capped
    score that is not NaN lies strictly between the two bounds. *)
Lemma cap_strictly_inside (lo hi lo' hi' x : float) :
  is_nan x = false -> is_nan lo = false -> is_nan hi = false ->
  is_nan lo' = false -> is_nan hi' = false ->
  (lo <? lo') = true -> (lo' <? hi) = true ->
  (lo <? hi') = true -> (hi' <? hi) = true ->
  let r := if x <=? lo then lo' else if hi <=? x then hi' else x in
  is_nan r = false /\ (lo <? r) = true /\ (r <? hi) = true.
Proof.
  intros Nx Nlo Nhi Nlo' Nhi' A B C D r. subst r.
  destruct (x <=? lo) eqn:E1; [repeat split; assumption|].
  destruct (hi <=? x) eqn:E2; [repeat split; assumption|].
  repeat split; [assumption| |]; apply not_leb_ltb; assumption.
Qed.

(** X12. On binary64, for both simplified strategies, when the available
    points do not compare equal to zero and the computed quotient is not
    NaN: if [votes_absent.strong > 1] the result lies strictly between 0.05
    and 0.95, and if [votes_absent.strong >= total / 3] it lies strictly
    between 0.15 and 0.85. *)
Theorem simplified_caps_exclude_extremes (s : Strategy)
    (votes_same votes_different votes_absent votes_abstain
     agreements_same agreements_different : ScoreFloatPair float) :
  s <> PublicWhip ->
  (avaliable_points_of s votes_same votes_different votes_absent
     votes_abstain agreements_same agreements_different =? 0) = false ->
  is_nan (quotient_of s votes_same votes_different votes_absent
            votes_abstain agreements_same agreements_different) = false ->
  let r := score_of s votes_same votes_different votes_absent votes_abstain
             agreements_same agreements_different in
  let total := strong votes_same + strong votes_different
               + strong votes_absent + strong votes_abstain in
  ((1 <? strong votes_absent) = true ->
   (lit 0.05 <? r) = true /\ (r <? lit 0.95) = true)
  /\ ((total / 3 <=? strong votes_absent) = true ->
      (lit 0.15 <? r) = true /\ (r <? lit 0.85) = true).
Proof.
  intros Hs Hav Hq r total.
  assert (E : r = let q := quotient_of s votes_same votes_different
                             votes_absent votes_abstain agreements_same
                             agreements_different in
                  let s1 := if 1 <? strong votes_absent
                            then if q <=? lit 0.05 then lit 0.06
                                 else if lit 0.95 <=? q then lit 0.94 else q
                            else q in
                  if total / 3 <=? strong votes_absent
                  then if s1 <=? lit 0.15 then lit 0.16
                       else if lit 0.85 <=? s1 then lit 0.84 else s1
                  else s1).
  { subst r total. destruct s; [contradiction Hs; reflexivity| |];
      cbn [score_of quotient_of avaliable_points_of] in *;
      [unfold SimplifiedGradiatedScore.score | unfold SimplifiedScore.score];
      cbv zeta; change (feqb ?a (lit 0)) with (a =? 0); rewrite Hav;
      reflexivity. }
  cbv zeta in E.
  set (q := quotient_of s votes_same votes_different votes_absent
              votes_abstain agreements_same agreements_different) in *.
  assert (C1 := cap_strictly_inside (lit 0.05) (lit 0.95) (lit 0.06)
                  (lit 0.94) q Hq).
  repeat (specialize (C1 ltac:(closed_double))).
  cbv zeta in C1. destruct C1 as (N1 & L1 & U1).
  set (s1 := if 1 <? strong votes_absent
             then if q <=? lit 0.05 then lit 0.06
                  else if lit 0.95 <=? q then lit 0.94 else q
             else q) in *.
  assert (N : is_nan s1 = false).
  { subst s1. destruct (1 <? strong votes_absent); assumption. }
  assert (C2 := cap_strictly_inside (lit 0.15) (lit 0.85) (lit 0.16)
                  (lit 0.84) s1 N).
  repeat (specialize (C2 ltac:(closed_double))).
  cbv zeta in C2. destruct C2 as (N2 & L2 & U2).
  rewrite E. split.
  - intros H1.
    assert (B1 : (lit 0.05 <? s1) = true /\ (s1 <? lit 0.95) = true).
    { subst s1. rewrite H1. split; assumption. }
    destruct (total / 3 <=? strong votes_absent); [|exact B1].
    destruct (s1 <=? lit 0.15); [split; closed_double|].
    destruct (lit 0.85 <=? s1); [split; closed_double|]. exact B1.
  - intros H3. rewrite H3. split; assumption.
Qed.

Lemma simplified_caps_exclude_extremes_witness :
  ((1 <? 2) = true ->
   (lit 0.05 <? score_of SimplifiedGradiated (float_pair 0 40) float_zero
                  (float_pair 0 2) float_zero float_zero float_zero) = true
   /\ (score_of SimplifiedGradiated (float_pair 0 40) float_zero
         (float_pair 0 2) float_zero float_zero float_zero <? lit 0.95) = true)
  /\ ((lit 0.15 <? score_of Simplified (float_pair 0 3) float_zero
                     (float_pair 0 2) float_zero float_zero float_zero) = true
      /\ (score_of Simplified (float_pair 0 3) float_zero (float_pair 0 2)
            float_zero float_zero float_zero <? lit 0.85) = true).
Proof.
  split.
  - apply (simplified_caps_exclude_extremes SimplifiedGradiated
             (float_pair 0 40) float_zero (float_pair 0 2) float_zero
             float_zero float_zero); [discriminate| |]; vm_compute; reflexivity.
  - apply (simplified_caps_exclude_extremes Simplified
             (float_pair 0 3) float_zero (float_pair 0 2) float_zero
             float_zero float_zero); [discriminate| | |];
      vm_compute; reflexivity.
Defined.

(** ** Weak counts that carry no weight *)

(** X14. On binary64 [SimplifiedScore.score] does not depend on the weak
    components, as long as each weak quantity the function multiplies by
    its weight 0.0 is a count (a finite double that is +0.0 or positive),
    before and after the change: the weak different votes, absences,
    abstentions and different agreements, and the two weak sums. *)
Theorem simplified_ignores_weak
    (votes_same votes_different votes_absent votes_abstain
     agreements_same agreements_different : ScoreFloatPair float)
    (w1 w2 w3 w4 w5 w6 : float) :
  is_count (weak votes_different) = true ->
  is_count (weak votes_absent) = true ->
  is_count (weak votes_abstain) = true ->
  is_count (weak agreements_different) = true ->
  is_count (weak votes_same + weak votes_different) = true ->
  is_count (weak agreements_same + weak agreements_different) = true ->
  is_count w2 = true -> is_count w3 = true -> is_count w4 = true ->
  is_count w6 = true ->
  is_count (w1 + w2) = true -> is_count (w5 + w6) = true ->
  SimplifiedScore.score
    (mkPair w1 (strong votes_same)) (mkPair w2 (strong votes_different))
    (mkPair w3 (strong votes_absent)) (mkPair w4 (strong votes_abstain))
    (mkPair w5 (strong agreements_same))
    (mkPair w6 (strong agreements_different))
  = SimplifiedScore.score votes_same votes_different votes_absent
      votes_abstain agreements_same agreements_different.
Proof.
  destruct votes_same as [sw ss], votes_different as [dw ds],
    votes_absent as [aw as_], votes_abstain as [bw bs],
    agreements_same as [gsw gss], agreements_different as [gdw gds].
  cbn [weak strong]. intros C1 C2 C3 C4 C5 C6 D1 D2 D3 D4 D5 D6.
  unfold SimplifiedScore.score, SimplifiedScore.points,
    SimplifiedScore.avaliable_points, SimplifiedScore.total,
    SimplifiedScore.agreement_weight, SimplifiedScore.abstain_total_weight,
    SimplifiedScore.abstain_weight, SimplifiedScore.absence_weight,
    SimplifiedScore.absence_total_weight, SimplifiedScore.vote_weight,
    divide, add.
  cbn [weak strong]. to_float.
  change (lit 0.0 / lit 2) with 0. change (lit 0.0) with 0.
  rewrite !(mul_zero_count _ C1), !(mul_zero_count _ C2),
    !(mul_zero_count _ C3), !(mul_zero_count _ C4), !(mul_zero_count _ C5),
    !(mul_zero_count _ C6), !(mul_zero_count _ D1), !(mul_zero_count _ D2),
    !(mul_zero_count _ D3), !(mul_zero_count _ D4), !(mul_zero_count _ D5),
    !(mul_zero_count _ D6).
  reflexivity.
Qed.

Lemma simplified_ignores_weak_witness :
  SimplifiedScore.score
    (mkPair 7 (strong (float_pair 1 9))) (mkPair 8 (strong (float_pair 2 1)))
    (mkPair 9 (strong (float_pair 3 2))) (mkPair 10 (strong (float_pair 4 2)))
    (mkPair 11 (strong (float_pair 5 3))) (mkPair 12 (strong (float_pair 6 1)))
  = SimplifiedScore.score (float_pair 1 9) (float_pair 2 1) (float_pair 3 2)
      (float_pair 4 2) (float_pair 5 3) (float_pair 6 1).
Proof.
  apply (simplified_ignores_weak (float_pair 1 9) (float_pair 2 1)
           (float_pair 3 2) (float_pair 4 2) (float_pair 5 3) (float_pair 6 1)
           7 8 9 10 11 12); vm_compute; reflexivity.
Defined.

(** X15. On binary64 [SimplifiedGradiatedScore.score] does not depend on the
    weak component of [votes_absent], as long as it is a count (a finite
    double that is +0.0 or positive) before and after the change. *)
Theorem gradiated_ignores_weak_absences
    (votes_same votes_different votes_absent votes_abstain
     agreements_same agreements_different : ScoreFloatPair float)
    (w : float) :
  is_count (weak votes_absent) = true -> is_count w = true ->
  SimplifiedGradiatedScore.score votes_same votes_different
    (mkPair w (strong votes_absent)) votes_abstain
    agreements_same agreements_different
  = SimplifiedGradiatedScore.score votes_same votes_different votes_absent
      votes_abstain agreements_same agreements_different.
Proof.
  destruct votes_absent as [aw as_]. cbn [weak strong]. intros C D.
  unfold SimplifiedGradiatedScore.score, SimplifiedGradiatedScore.points,
    SimplifiedGradiatedScore.avaliable_points, SimplifiedGradiatedScore.total,
    SimplifiedGradiatedScore.absence_weight,
    SimplifiedGradiatedScore.absence_total_weight, add.
  cbn [weak strong]. to_float.
  change (lit 0.0) with 0.
  rewrite !(mul_zero_count _ C), !(mul_zero_count _ D). reflexivity.
Qed.

Lemma gradiated_ignores_weak_absences_witness :
  SimplifiedGradiatedScore.score (float_pair 1 9) (float_pair 2 1)
    (mkPair 30 (strong (float_pair 3 2))) (float_pair 4 2) (float_pair 5 3)
    (float_pair 6 1)
  = SimplifiedGradiatedScore.score (float_pair 1 9) (float_pair 2 1)
      (float_pair 3 2) (float_pair 4 2) (float_pair 5 3) (float_pair 6 1).
Proof.
  apply (gradiated_ignores_weak_absences (float_pair 1 9) (float_pair 2 1)
           (float_pair 3 2) (float_pair 4 2) (float_pair 5 3) (float_pair 6 1)
           30); vm_compute; reflexivity.
Defined.

End DoubleClaims.

(** * The same definitions on binary64 *)

Module Binary64.
Local Open Scope float_scope.

(** The decimal literals of the source are read as the doubles Python
    reads them as (given here in hexadecimal, which is exact). *)
Example literals :
  map (@lit float _) [0.05; 0.06; 0.94; 0.95; 0.15; 0.16; 0.84; 0.85]%Q
  = [0x1.999999999999ap-5; 0x1.eb851eb851eb8p-5; 0x1.e147ae147ae14p-1;
     0x1.e666666666666p-1; 0x1.3333333333333p-3; 0x1.47ae147ae147bp-3;
     0x1.ae147ae147ae1p-1; 0x1.b333333333333p-1].
Proof. vm_compute. reflexivity. Qed.

(** The scenario of the docstring: 3/26 as a double, 0.11538461538461539. *)
Example public_whip_literal_scenario_float :
  PublicWhipScore.score (float_pair 2 0) float_zero (float_pair 3 0) float_zero float_zero float_zero
  = 0x1.d89d89d89d89ep-4.
Proof. vm_compute. reflexivity. Qed.

Example public_whip_just_absences_float :
  PublicWhipScore.score float_zero float_zero (float_pair 3 0) float_zero float_zero float_zero = -1.
Proof. vm_compute. reflexivity. Qed.

Example all_zero_float :
  map (fun s => score_of s float_zero float_zero float_zero float_zero float_zero float_zero)
      [PublicWhip; SimplifiedGradiated; Simplified]
  = [-1; -1; -1].
Proof. vm_compute. reflexivity. Qed.

(** The two caps, at the inputs used over the rationals: 0.06, then 0.16. *)
Example gradiated_first_cap_float :
  SimplifiedGradiatedScore.score (float_pair 0 40) float_zero (float_pair 0 2) float_zero float_zero float_zero
  = lit 0.06%Q.
Proof. vm_compute. reflexivity. Qed.

Example gradiated_second_cap_float :
  SimplifiedGradiatedScore.score (float_pair 0 4) float_zero (float_pair 0 2) float_zero float_zero float_zero
  = lit 0.16%Q.
Proof. vm_compute. reflexivity. Qed.

Example gradiated_weak_only_float :
  SimplifiedGradiatedScore.score (float_pair 5 0) float_zero float_zero float_zero float_zero float_zero
  = lit 0.16%Q.
Proof. vm_compute. reflexivity. Qed.

Example simplified_weak_only_float :
  SimplifiedScore.score (float_pair 7 0) (float_pair 4 0) (float_pair 1 0) (float_pair 2 0)
                        (float_pair 3 0) (float_pair 5 0)
  = -1.
Proof. vm_compute. reflexivity. Qed.

Example simplified_equals_gradiated_float :
  SimplifiedScore.score (float_pair 0 9) (float_pair 0 1) (float_pair 0 2) (float_pair 0 2)
                        (float_pair 0 3) (float_pair 0 1)
  = SimplifiedGradiatedScore.score (float_pair 0 9) (float_pair 0 1) (float_pair 0 2)
      (float_pair 0 2) (float_pair 0 3) (float_pair 0 1).
Proof. vm_compute. reflexivity. Qed.

(** X2. On binary64 no strategy raises [ZeroDivisionError] either, for any
    six pairs of doubles, infinities and NaN included. *)
Theorem score_never_raises_binary64 (s : Strategy)
    (votes_same votes_different votes_absent votes_abstain
     agreements_same agreements_different : ScoreFloatPair float) :
  Checked.score_of s votes_same votes_different votes_absent votes_abstain
                   agreements_same agreements_different
  = Some (score_of s votes_same votes_different votes_absent votes_abstain
                   agreements_same agreements_different).
Proof. apply checked_score_is_score; vm_compute; reflexivity. Qed.
End Binary64.
